(** * AI Security Config Scanner: the content normalizer and the audit requester

    A shallow embedding of [app.py]: [parse_uploaded_file], [call_llm] and the
    body of the "Run Security Scan" button, with the properties the
    specification states about them.

    Conventions of the embedding.
    - A Python [str] is held as the UTF-8 encoding of its code points, in a
      Rocq [string]; [bytes] is a [list byte].  [bytes.decode("utf-8")] is
      then strict validation followed by the identity on the bytes.
    - A Python call either returns or raises: [outcome].  A function that
      also mutates an object is a state transformer over that object, [M].
    - The third-party libraries the program calls ([json], [yaml],
      [pandas.read_excel], the OpenAI client) are interfaces: type classes.
      What the program relies on of [json] and [yaml] is a named contract,
      a hypothesis wherever a property needs it, and proved of the
      executable reference models [RefJson] and [RefYaml].
    - [DataFrame.to_csv] is written out, following the [csv] module's
      minimal quoting.

    The file has the embedding first, then the notions the properties are
    stated with and the reference models, then the lemmas, and last the
    claims of the specification, C1 to C10, each followed further down by
    its instance at a concrete input.  After them come further properties
    of the code, X1 to X13, on the normalizer, the request, the scan and
    the script as a whole, with their instances. *)

From Stdlib Require Import String Ascii List ZArith NArith Lia Bool Arith.
From Stdlib Require Import Strings.Byte DecimalString DecimalPos DecimalN.
Import ListNotations.
Open Scope string_scope.
Set Warnings "-register-all".

(** ** Python values *)

Definition str := string.
Definition bytes := list byte.

(** An exception object: its class name and [str(e)]. *)
Record exn : Type := Exception { exn_class : str; exn_str : str }.

Inductive outcome (A : Type) : Type :=
| Ret (a : A)
| Raise (e : exn).
Arguments Ret {A} a.
Arguments Raise {A} e.

(** The values [json.loads] and [yaml.safe_load] build.  A [dict] keeps its
    items in insertion order, so it is a list of pairs; a float is named by
    its [repr]. *)
Inductive pyobj : Type :=
| PyNone
| PyBool (b : bool)
| PyInt (z : Z)
| PyFloat (repr : str)
| PyStr (s : str)
| PyList (items : list pyobj)
| PyDict (items : list (pyobj * pyobj)).

(** ** Characters and strings *)

Definition LF : ascii := "010"%char.
Definition CR : ascii := "013"%char.
Definition DQUOTE : ascii := "034"%char.
Definition nl : str := String LF EmptyString.

(** [str.lower] on one character: the ASCII capitals move down by 32; every
    other byte (in particular each byte of a multi-byte UTF-8 sequence) is
    kept.  The extensions the program tests for are ASCII, and no letter
    outside ASCII lowers to one of their letters. *)
Definition lower_char (c : ascii) : ascii :=
  let n := N_of_ascii c in
  if ((65 <=? n) && (n <=? 90))%N then ascii_of_N (n + 32) else c.

Fixpoint lower (s : str) : str :=
  match s with
  | EmptyString => EmptyString
  | String c s' => String (lower_char c) (lower s')
  end.

(** [s.endswith(suffix)] *)
Fixpoint endswith (s suffix : str) : bool :=
  String.eqb s suffix ||
  match s with
  | EmptyString => false
  | String _ s' => endswith s' suffix
  end.

(** [s.endswith((suffix1, suffix2, ...))] *)
Definition endswith_any (s : str) (suffixes : list str) : bool :=
  existsb (endswith s) suffixes.

(** ** UTF-8 decoding *)

Definition between (lo hi : N) (b : byte) : bool :=
  ((lo <=? Byte.to_N b) && (Byte.to_N b <=? hi))%N.

Definition cont (b : byte) : bool := between 128 191 b.

(** Well-formed UTF-8 byte sequences (Unicode, table 3-7): no overlong form,
    no surrogate, nothing above U+10FFFF. *)
Fixpoint utf8_valid (bs : bytes) : bool :=
  match bs with
  | [] => true
  | b0 :: bs1 =>
      if between 0 127 b0 then utf8_valid bs1
      else if between 194 223 b0 then
        match bs1 with
        | b1 :: bs2 => cont b1 && utf8_valid bs2
        | _ => false
        end
      else if between 224 239 b0 then
        match bs1 with
        | b1 :: b2 :: bs3 =>
            (if between 224 224 b0 then between 160 191 b1
             else if between 237 237 b0 then between 128 159 b1
             else cont b1)
            && cont b2 && utf8_valid bs3
        | _ => false
        end
      else if between 240 244 b0 then
        match bs1 with
        | b1 :: b2 :: b3 :: bs4 =>
            (if between 240 240 b0 then between 144 191 b1
             else if between 244 244 b0 then between 128 143 b1
             else cont b1)
            && cont b2 && cont b3 && utf8_valid bs4
        | _ => false
        end
      else false
  end.

(** [b.decode("utf-8")] *)
Definition decode_utf8 (b : bytes) : outcome str :=
  if utf8_valid b then Ret (string_of_list_byte b)
  else Raise (Exception "UnicodeDecodeError" "'utf-8' codec can't decode bytes").

(** ** Calls that mutate an object *)

Definition M (S A : Type) : Type := S -> outcome A * S.

Definition ret {S A} (a : A) : M S A := fun s => (Ret a, s).

Definition bind {S A B} (m : M S A) (k : A -> M S B) : M S B :=
  fun s =>
    match m s with
    | (Ret a, s') => k a s'
    | (Raise e, s') => (Raise e, s')
    end.

Definition raise {S A} (e : exn) : M S A := fun s => (Raise e, s).

(** The result of a call that cannot touch the object. *)
Definition lift {S A} (r : outcome A) : M S A := fun s => (r, s).

Definition get {S} : M S S := fun s => (Ret s, s).

(** [try: body / except ... as e: handler e].  Every exception of the model
    is an [Exception], so [except Exception] and a bare [except] catch the
    same. *)
Definition try_except {S A} (body : M S A) (handler : exn -> M S A) : M S A :=
  fun s =>
    match body s with
    | (Ret a, s') => (Ret a, s')
    | (Raise e, s') => handler e s'
    end.

(** Run [m] inside a component of the state. *)
Definition zoom {S T A} (proj : S -> T) (upd : T -> S -> S) (m : M T A) : M S A :=
  fun s => let (r, t') := m (proj s) in (r, upd t' s).

Declare Scope py_scope.
Delimit Scope py_scope with py.
Notation "x <- m ;; k" := (bind m (fun x => k))
  (at level 61, m at next level, right associativity) : py_scope.
Notation "m ;;; k" := (bind m (fun _ => k))
  (at level 61, right associativity) : py_scope.
Notation "'TRY' body 'EXCEPT' e => handler" := (try_except body (fun e => handler))
  (at level 62, e name, body at level 61, handler at level 61) : py_scope.
Open Scope py_scope.

(** ** The uploaded file

    Streamlit's [UploadedFile] is an [io.BytesIO] with a [name]: the bytes
    and a read cursor. *)
Record UploadedFile : Type := mkFile {
  name : str;
  data : bytes;
  pos : nat
}.

(** [f.read()]: the bytes from the cursor on; the cursor moves to the end. *)
Definition file_read : M UploadedFile bytes :=
  fun f => (Ret (skipn (pos f) (data f)),
            mkFile (name f) (data f) (Nat.max (pos f) (length (data f)))).

(** [f.seek(n)] *)
Definition file_seek (n : nat) : M UploadedFile unit :=
  fun f => (Ret tt, mkFile (name f) (data f) n).

(** ** Tabular data and [DataFrame.to_csv]

    A frame holds its column labels and its rows; every cell is the text
    [to_csv] writes for it (a missing value is the empty text). *)
Record DataFrame : Type := mkFrame {
  columns : list str;
  rows : list (list str)
}.

(** [sep.join(l)] *)
Fixpoint join (sep : str) (l : list str) : str :=
  match l with
  | [] => EmptyString
  | x :: xs =>
      match xs with
      | [] => x
      | _ :: _ => x ++ sep ++ join sep xs
      end
  end.

Fixpoint str_existsb (p : ascii -> bool) (s : str) : bool :=
  match s with
  | EmptyString => false
  | String c s' => p c || str_existsb p s'
  end.

(** The characters that force [csv.QUOTE_MINIMAL] to quote a field: the
    delimiter, the quote character and the line terminator; and, when
    [quote_cr] is set, the carriage return, for the interpreters whose
    writer quotes every line break (Python 3.11 quotes only the characters
    of the line terminator). *)
Definition csv_special (quote_cr : bool) (c : ascii) : bool :=
  Ascii.eqb c ","%char || Ascii.eqb c DQUOTE || Ascii.eqb c LF ||
  (quote_cr && Ascii.eqb c CR).

Fixpoint double_quotes (s : str) : str :=
  match s with
  | EmptyString => EmptyString
  | String c s' =>
      if Ascii.eqb c DQUOTE then String DQUOTE (String DQUOTE (double_quotes s'))
      else String c (double_quotes s')
  end.

Definition csv_field (quote_cr : bool) (s : str) : str :=
  if str_existsb (csv_special quote_cr) s
  then String DQUOTE (double_quotes s ++ String DQUOTE EmptyString)
  else s.

(** [csv.writer.writerow]: the fields joined by commas; a record that would
    be empty although it has a field is written as a quoted empty field. *)
Definition csv_record (quote_cr : bool) (fields : list str) : str :=
  let line := join "," (map (csv_field quote_cr) fields) in
  match fields, line with
  | _ :: _, EmptyString => String DQUOTE (String DQUOTE EmptyString)
  | _, _ => line
  end.

Definition csv_writerow (quote_cr : bool) (fields : list str) : str :=
  csv_record quote_cr fields ++ nl.

(** [csv.writer.writerows] *)
Fixpoint csv_writerows (quote_cr : bool) (records : list (list str)) : str :=
  match records with
  | [] => EmptyString
  | r :: records' => csv_writerow quote_cr r ++ csv_writerows quote_cr records'
  end.

Definition str_of_nat (n : nat) : str := NilEmpty.string_of_uint (Nat.to_uint n).

Fixpoint number_rows (i : nat) (rs : list (list str)) : list (list str) :=
  match rs with
  | [] => []
  | r :: rs' => (str_of_nat i :: r) :: number_rows (S i) rs'
  end.

(** ** The libraries the program calls *)

(** [pandas.read_excel] on a file object: the frame or the error it raises,
    and where it leaves the read cursor.  It looks at the bytes, not at the
    name.  With it comes the [csv] module pandas writes through, which
    quotes a carriage return or not according to the interpreter. *)
Class Pandas : Type := {
  read_excel : bytes -> nat -> outcome DataFrame * nat;
  quotes_carriage_return : bool
}.

(** [df.to_csv(index=...)] with no path: the text itself, every record
    ended by [os.linesep], a line feed where the application is hosted.
    With the index, a first column holds the row numbers under an empty
    label. *)
Definition to_csv {pandas : Pandas} (df : DataFrame) (index : bool) : str :=
  let header := if index then EmptyString :: columns df else columns df in
  let body := if index then number_rows 0 (rows df) else rows df in
  csv_writerows quotes_carriage_return (header :: body).

(** [json.loads(text)] and [json.dumps(obj, indent=...)] *)
Class Json : Type := {
  json_loads : str -> outcome pyobj;
  json_dumps : pyobj -> option nat -> outcome str
}.

(** [yaml.safe_load(text)] and [yaml.safe_dump(obj, sort_keys=...)] *)
Class Yaml : Type := {
  yaml_safe_load : str -> outcome pyobj;
  yaml_safe_dump : pyobj -> bool -> outcome str
}.

(** The request [client.responses.create] sends and the object it returns.
    An attribute an object may lack is an [option]; [response_str] is
    [str(response)]. *)
Record Message : Type := mkMessage { role : str; content : str }.

Record Request : Type := mkRequest {
  model : str;
  input : list Message;
  max_output_tokens : nat
}.

Record ContentPart : Type := mkPart { part_text : option str }.

Record OutputItem : Type := mkItem { item_content : option (list ContentPart) }.

Record Response : Type := mkResponse {
  output_text : option str;
  output : option (list OutputItem);
  response_str : str
}.

(** [client.responses.create]: what the service answers to a request, given
    the requests it has received before. *)
Class OpenAI : Type := {
  responses_create : list Request -> Request -> outcome Response
}.

(** What the libraries promise, as far as the program relies on it. *)

(** A value [json.loads] produced is serialized by [json.dumps] (whatever the
    indentation) to a text that loads back to the same value. *)
Definition json_round_trip `{Json} : Prop :=
  forall text v indent,
    json_loads text = Ret v ->
    exists s, json_dumps v indent = Ret s /\ json_loads s = Ret v.

(** A value [yaml.safe_load] produced is serialized by [yaml.safe_dump] with
    [sort_keys=False] to a text that loads back to the same value, every
    mapping with its items in the same order. *)
Definition yaml_round_trip `{Yaml} : Prop :=
  forall text v,
    yaml_safe_load text = Ret v ->
    exists s, yaml_safe_dump v false = Ret s /\ yaml_safe_load s = Ret v.

(** ** Key order of loaded values *)

(** The key sequence of every mapping of a value, outermost first. *)
Fixpoint key_orders (v : pyobj) : list (list pyobj) :=
  match v with
  | PyList items => flat_map key_orders items
  | PyDict items =>
      map fst items ::
      flat_map (fun kv : pyobj * pyobj =>
                  let (k, x) := kv in (key_orders k ++ key_orders x)%list) items
  | _ => []
  end.

(** ** The program *)

Definition SYSTEM_PROMPT : str :=
  String.concat nl [
    EmptyString;
    "You are an AI Security Auditor specializing in identifying misconfigurations,";
    "secret exposures, insecure defaults, and IAM risks across configuration files.";
    EmptyString;
    "Analyze the uploaded file for:";
    "- Hardcoded API keys, secrets, tokens";
    "- Overly permissive IAM roles (admin, owner, editor, wildcard privileges)";
    "- Public access (0.0.0.0/0, public buckets, open firewall rules)";
    "- Unsafe environment variables";
    "- Terraform misconfigurations";
    "- Cloud or DevOps insecure settings";
    "- Kubernetes, Docker, YAML, JSON, .env, TF file risks";
    EmptyString;
    "For each issue, include:";
    "1. Severity: HIGH / MEDIUM / LOW";
    "2. Where it appears (line/key/resource)";
    "3. Impact";
    "4. Remediation steps";
    EmptyString;
    "Return output in Markdown.";
    EmptyString ].

(** Reify what a [try] body did, for an [except] clause that returns from
    the function while the code after the [try] goes on otherwise. *)
Definition attempt {S A} (body : M S A) : M S (outcome A) :=
  fun s => let (r, s') := body s in (Ret r, s').

Section Program.
Context {pandas : Pandas} {json : Json} {yaml : Yaml} {openai : OpenAI}.

(** [pd.read_excel(uploaded_file)] *)
Definition pd_read_excel : M UploadedFile DataFrame :=
  fun f => let (r, p) := read_excel (data f) (pos f) in
           (r, mkFile (name f) (data f) p).

Definition parse_uploaded_file : M UploadedFile str :=
  uploaded_file <- get ;;
  let filename := lower (name uploaded_file) in
  (* Excel: convert to CSV-like text *)
  if endswith filename ".xlsx" then
    TRY (df <- pd_read_excel ;; ret (to_csv df false))
    EXCEPT e => ret ("ERROR reading Excel: " ++ exn_str e)
  else
    (* Other text formats *)
    decoded <- attempt (b <- file_read ;;
                        content <- lift (decode_utf8 b) ;;
                        file_seek 0 ;;;
                        ret content) ;;
    match decoded with
    | Raise _ => ret "Unable to decode file."
    | Ret content =>
        (* YAML *)
        if endswith_any filename [".yaml"; ".yml"] then
          TRY (parsed <- lift (yaml_safe_load content) ;;
               lift (yaml_safe_dump parsed false))
          EXCEPT e => ret content
        (* JSON *)
        else if endswith filename ".json" then
          TRY (parsed <- lift (json_loads content) ;;
               lift (json_dumps parsed (Some 2)))
          EXCEPT e => ret content
        else ret content
    end.

(** Attribute access and indexing, as the fallback of [call_llm] uses
    them. *)
Definition getattr {A} (field : option A) (attr : str) : outcome A :=
  match field with
  | Some a => Ret a
  | None => Raise (Exception "AttributeError" ("object has no attribute '" ++ attr ++ "'"))
  end.

Definition hasattr {A} (field : option A) : bool :=
  match field with Some _ => true | None => false end.

Definition first_item {A} (l : list A) : outcome A :=
  match l with
  | a :: _ => Ret a
  | [] => Raise (Exception "IndexError" "list index out of range")
  end.

Definition obind {A B} (r : outcome A) (k : A -> outcome B) : outcome B :=
  match r with Ret a => k a | Raise e => Raise e end.

(** [for item in items: if hasattr(item, "content"): return
    item.content[0].text], then [return str(response)]. *)
Fixpoint scan_output (items : list OutputItem) (response : Response) : outcome str :=
  match items with
  | [] => Ret (response_str response)
  | item :: rest =>
      if hasattr (item_content item) then
        obind (getattr (item_content item) "content") (fun parts =>
        obind (first_item parts) (fun part =>
        getattr (part_text part) "text"))
      else scan_output rest response
  end.

(** The text of a response: [response.output_text], and when reading it
    raises, the scan of [response.output]. *)
Definition extract_text (response : Response) : outcome str :=
  match getattr (output_text response) "output_text" with
  | Ret t => Ret t
  | Raise _ =>
      obind (getattr (output response) "output") (fun items =>
      scan_output items response)
  end.

Definition build_prompt (file_content notes : str) : str :=
  nl ++ "### Configuration File Content: " ++ nl ++
  nl ++
  file_content ++ nl ++
  nl ++
  nl ++
  "### Additional User Instruction:" ++ nl ++
  notes ++ nl ++
  nl ++
  "### Task:" ++ nl ++
  "Perform a full security audit of this configuration." ++ nl.

(** [client.responses.create(...)]: one request goes out and is recorded;
    the state is the list of requests sent so far. *)
Definition client_responses_create (req : Request) : M (list Request) Response :=
  fun sent => (responses_create sent req, (sent ++ [req])%list).

Definition call_llm (file_content notes : str) : M (list Request) str :=
  let prompt := build_prompt file_content notes in
  response <- client_responses_create
                (mkRequest "gpt-4.1"
                   [mkMessage "system" SYSTEM_PROMPT; mkMessage "user" prompt]
                   1500) ;;
  (* New OpenAI SDK: extract text safely *)
  lift (extract_text response).

(** *** The page *)

Inductive Element : Type :=
| st_error (body : str)
| st_info (body : str)
| st_expander (label : str) (inner : list Element)
| st_code (body : str)
| st_subheader (body : str)
| st_markdown (body : str)
| st_download_button (label data file_name mime : str).

(** One run of the script: the file in the uploader, the requests sent to
    the service and what has been drawn. *)
Record Session : Type := mkSession {
  uploaded : option UploadedFile;
  sent : list Request;
  page : list Element
}.

Definition draw (e : Element) : M Session unit :=
  fun s => (Ret tt, mkSession (uploaded s) (sent s) (page s ++ [e])%list).

Definition on_file {A} (f : UploadedFile) (m : M UploadedFile A) : M Session A :=
  fun s => let (r, f') := m f in (r, mkSession (Some f') (sent s) (page s)).

Definition on_client {A} (m : M (list Request) A) : M Session A :=
  zoom sent (fun l s => mkSession (uploaded s) l (page s)) m.

(** The body of [if st.button("Run Security Scan", ...)].  The spinner shown
    while the request runs leaves nothing on the page and is not recorded. *)
Definition run_security_scan (notes : str) : M Session unit :=
  s <- get ;;
  match uploaded s with
  | None => draw (st_error "Please upload a configuration file first.")
  | Some up =>
      draw (st_info ("Processing file: " ++ name up)) ;;;
      content <- on_file up parse_uploaded_file ;;
      draw (st_expander "Parsed File Content" [st_code content]) ;;;
      result <- on_client (call_llm content notes) ;;
      draw (st_subheader "Security Findings") ;;;
      draw (st_markdown result) ;;;
      draw (st_download_button "Download Report" result
              (name up ++ "_security_report.md") "text/markdown")
  end.

End Program.

(** ** The script from its first line

    Streamlit runs [app.py] from top to bottom on every interaction: the key
    is read and the client built, the form is drawn, and the body of the
    button runs when that interaction was a press of the button.  What the
    widgets return on a run (the file in the uploader, the notes typed, the
    button pressed or not) is given to the run. *)

(** [st.secrets]: the keys of the secrets file with their values. *)
Definition Secrets : Type := list (str * str).

(** [st.secrets[key]]; a key that is not there is a [KeyError]. *)
Fixpoint secrets_get (secrets : Secrets) (key : str) : outcome str :=
  match secrets with
  | [] => Raise (Exception "KeyError" ("'" ++ key ++ "'"))
  | (k, v) :: rest => if String.eqb k key then Ret v else secrets_get rest key
  end.

(** The widgets above the button body. *)
Inductive Widget : Type :=
| st_set_page_config (page_title page_icon layout : str)
| st_title (body : str)
| st_write (body : str)
| st_file_uploader (label : str) (type : list str)
| st_text_area (label : str)
| st_button (label type : str).

(** The shield of the page icon: U+1F6E1 U+FE0F. *)
Definition PAGE_ICON : str :=
  string_of_list_byte [xf0; x9f; x9b; xa1; xef; xb8; x8f].

(** The extensions the uploader offers. *)
Definition UPLOAD_TYPES : list str :=
  ["yaml"; "yml"; "json"; "tf"; "txt"; "env"; "ini"; "cfg"; "xml"; "sh";
   "properties"; "xlsx"].

(** One run of the whole script: the widgets drawn, and below them the
    session the button body works on. *)
Record Run : Type := mkRun {
  widgets : list Widget;
  session : Session
}.

Definition place (w : Widget) : M Run unit :=
  fun r => (Ret tt, mkRun (widgets r ++ [w])%list (session r)).

Definition in_session {A} (m : M Session A) : M Run A :=
  zoom session (fun s r => mkRun (widgets r) s) m.

Section Script.
Context {pandas : Pandas} {json : Json} {yaml : Yaml}.

(** [OpenAI(api_key=...)]: the service as a client with that key reaches
    it.  Building the client from a key sends nothing and does not fail. *)
Variable OpenAI_client : str -> OpenAI.

(** The script.  [load_dotenv()] changes the environment of the process
    only; the key comes from [st.secrets].  [notes] and [clicked] are what
    [st.text_area] and [st.button] return on this run; [st.file_uploader]
    returns the file of the session. *)
Definition app_py (secrets : Secrets) (notes : str) (clicked : bool) : M Run unit :=
  OPENAI_API_KEY <- lift (secrets_get secrets "OPENAI_API_KEY") ;;
  let client := OpenAI_client OPENAI_API_KEY in
  place (st_set_page_config "AI Security Config Scanner" PAGE_ICON "wide") ;;;
  place (st_title "AI Security Config Scanner") ;;;
  place (st_write
           "Upload any configuration file and let an AI-powered auditor detect misconfigurations, secrets, and IAM risks.") ;;;
  place (st_file_uploader "Upload a config file" UPLOAD_TYPES) ;;;
  place (st_text_area
           "Optional: Add extra instructions (example: 'focus on IAM roles only')") ;;;
  place (st_button "Run Security Scan" "primary") ;;;
  if clicked then
    in_session (@run_security_scan pandas json yaml client notes)
  else ret tt.

End Script.

(** * Notions the properties are stated with *)

(** The bytes [read()] returns, and the file once read to the end or
    rewound. *)
Definition remaining (f : UploadedFile) : bytes := skipn (pos f) (data f).

Definition at_end (f : UploadedFile) : UploadedFile :=
  mkFile (name f) (data f) (Nat.max (pos f) (length (data f))).

Definition rewound (f : UploadedFile) : UploadedFile :=
  mkFile (name f) (data f) 0.

Definition or_else {A} (r : outcome A) (fallback : A) : A :=
  match r with Ret a => a | Raise _ => fallback end.

(** The one request [call_llm] sends. *)
Definition audit_request (file_content notes : str) : Request :=
  mkRequest "gpt-4.1"
    [mkMessage "system" SYSTEM_PROMPT;
     mkMessage "user" (build_prompt file_content notes)]
    1500.

(** A service that answers every request the same way. *)
Definition canned_service (answer : outcome Response) : OpenAI :=
  {| responses_create := fun _ _ => answer |}.

(** What a scan draws before the request goes out. *)
Definition drawn_before_request (up : UploadedFile) (content : str) : list Element :=
  [st_info ("Processing file: " ++ name up);
   st_expander "Parsed File Content" [st_code content]].

(** What it draws once the report is there. *)
Definition drawn_after_response (up : UploadedFile) (result : str) : list Element :=
  [st_subheader "Security Findings";
   st_markdown result;
   st_download_button "Download Report" result
     (name up ++ "_security_report.md") "text/markdown"].

(** [s.split(sep)] for a separator of one character. *)
Fixpoint split_on (sep : ascii) (s : str) : list str :=
  match s with
  | EmptyString => [EmptyString]
  | String c s' =>
      if Ascii.eqb c sep then EmptyString :: split_on sep s'
      else match split_on sep s' with
           | piece :: pieces => String c piece :: pieces
           | [] => [String c EmptyString]
           end
  end.

(** The lines of a text: the pieces between line feeds; the line feed that
    ends the text opens no further line. *)
Definition text_lines (s : str) : list str :=
  let pieces := split_on LF s in
  match last pieces (String LF EmptyString) with
  | EmptyString => removelast pieces
  | _ => pieces
  end.

(** The comma-separated fields of a line; an empty line holds none. *)
Definition line_fields (line : str) : list str :=
  match line with
  | EmptyString => []
  | _ => split_on ","%char line
  end.

(** [n + 1] lines of [m] comma-separated fields each. *)
Definition csv_shape (out : str) (n m : nat) : bool :=
  Nat.eqb (length (text_lines out)) (n + 1) &&
  forallb (fun line => Nat.eqb (length (line_fields line)) m) (text_lines out).


Definition mentions (c : ascii) (s : str) : bool :=
  str_existsb (fun x => Ascii.eqb x c) s.



(** A workbook reader that decodes every file to the same frame. *)
Definition canned_workbook (df : DataFrame) : Pandas :=
  {| read_excel := fun b _ => (Ret df, length b);
     quotes_carriage_return := true |}.

(** [csv.reader] over a text whose records end in a line feed: the fields
    of every record, quoted fields unquoted.  A blank line is a record with
    no field. *)
Inductive reading : Type :=
| FieldStart
| Unquoted
| Quoted
| QuoteSeen.

Definition close_record (st : reading) (cur : str) (fields : list str) : list str :=
  match st, fields with
  | FieldStart, [] => []
  | _, _ => (fields ++ [cur])%list
  end.

Fixpoint csv_read (s : str) (st : reading) (cur : str) (fields : list str) :
    list (list str) :=
  match s with
  | EmptyString =>
      match st, cur, fields with
      | FieldStart, EmptyString, [] => []
      | _, _, _ => [close_record st cur fields]
      end
  | String c s' =>
      match st with
      | Quoted =>
          if Ascii.eqb c DQUOTE then csv_read s' QuoteSeen cur fields
          else csv_read s' Quoted (cur ++ String c EmptyString) fields
      | _ =>
          if Ascii.eqb c ","%char then
            csv_read s' FieldStart EmptyString (fields ++ [cur])%list
          else if Ascii.eqb c LF then
            close_record st cur fields :: csv_read s' FieldStart EmptyString []
          else if Ascii.eqb c DQUOTE then
            match st with
            | FieldStart => csv_read s' Quoted cur fields
            | QuoteSeen => csv_read s' Quoted (cur ++ String DQUOTE EmptyString) fields
            | _ => csv_read s' Unquoted (cur ++ String c EmptyString) fields
            end
          else
            csv_read s' (match st with FieldStart => Unquoted | _ => st end)
              (cur ++ String c EmptyString) fields
      end
  end.

Definition csv_records (s : str) : list (list str) :=
  csv_read s FieldStart EmptyString [].

(** * Notions the further properties are stated with *)

(** What the prompt puts between the file content and the notes. *)
Definition notes_heading : str :=
  nl ++ nl ++ nl ++ "### Additional User Instruction:" ++ nl.

(** What comes before the file content in the prompt, and after the notes. *)
Definition prompt_head : str :=
  nl ++ "### Configuration File Content: " ++ nl ++ nl.

Definition prompt_tail : str :=
  nl ++ nl ++ "### Task:" ++ nl ++
  "Perform a full security audit of this configuration." ++ nl.

Definition has_content (item : OutputItem) : bool := hasattr (item_content item).

(** [item.content[0].text] *)
Definition first_part_text (item : OutputItem) : outcome str :=
  obind (getattr (item_content item) "content") (fun parts =>
  obind (first_item parts) (fun part =>
  getattr (part_text part) "text")).

(** The text a response yields, if it yields one: its direct text; without
    one, the text of the first part of the first output item that has a
    content, or [str(response)] when no item has one. *)
Definition response_text (r : Response) : option str :=
  match output_text r with
  | Some t => Some t
  | None =>
      match output r with
      | None => None
      | Some items =>
          match find has_content items with
          | None => Some (response_str r)
          | Some item =>
              match item_content item with
              | Some (part :: _) => part_text part
              | _ => None
              end
          end
      end
  end.

Definition mem (x : str) (l : list str) : bool := existsb (String.eqb x) l.

(** The extensions the normalizer hands to a parser. *)
Definition PARSED_TYPES : list str := ["yaml"; "yml"; "json"; "xlsx"].

(** The form every run draws. *)
Definition form : list Widget :=
  [st_set_page_config "AI Security Config Scanner" PAGE_ICON "wide";
   st_title "AI Security Config Scanner";
   st_write
     "Upload any configuration file and let an AI-powered auditor detect misconfigurations, secrets, and IAM risks.";
   st_file_uploader "Upload a config file" UPLOAD_TYPES;
   st_text_area
     "Optional: Add extra instructions (example: 'focus on IAM roles only')";
   st_button "Run Security Scan" "primary"].

(** A client that reaches the same service whatever its key. *)
Definition any_key (service : OpenAI) : str -> OpenAI := fun _ => service.

(** * Reference models of the libraries

    Executable models of [json] and [yaml] on a fragment of their input
    language, used to run the program on concrete files.  On a text or a
    value outside the fragment a model raises [NotImplementedError]. *)

Definition not_modelled {A} (what : str) : outcome A :=
  Raise (Exception "NotImplementedError" what).

Definition is_digit (c : ascii) : bool :=
  ((48 <=? N_of_ascii c) && (N_of_ascii c <=? 57))%N.

Definition is_space (c : ascii) : bool :=
  Ascii.eqb c " "%char || Ascii.eqb c "009"%char ||
  Ascii.eqb c LF || Ascii.eqb c CR.

Definition is_ascii (c : ascii) : bool := (N_of_ascii c <? 128)%N.

Fixpoint str_forallb (p : ascii -> bool) (s : str) : bool :=
  match s with
  | EmptyString => true
  | String c s' => p c && str_forallb p s'
  end.

Fixpoint skip_ws (s : str) : str :=
  match s with
  | String c s' => if is_space c then skip_ws s' else s
  | EmptyString => s
  end.

Definition head_is (c : ascii) (s : str) : bool :=
  match s with
  | String x _ => Ascii.eqb x c
  | EmptyString => false
  end.

Definition behead (s : str) : str :=
  match s with
  | String _ s' => s'
  | EmptyString => EmptyString
  end.

Definition digit_headed (s : str) : bool :=
  match s with
  | String c _ => is_digit c
  | EmptyString => false
  end.

Fixpoint spaces (n : nat) : str :=
  match n with
  | 0 => EmptyString
  | S n' => String " "%char (spaces n')
  end.

(** Decimal digits, most significant first. *)
Fixpoint render_uint (d : Decimal.uint) : str :=
  match d with
  | Decimal.Nil => EmptyString
  | Decimal.D0 d' => String "0"%char (render_uint d')
  | Decimal.D1 d' => String "1"%char (render_uint d')
  | Decimal.D2 d' => String "2"%char (render_uint d')
  | Decimal.D3 d' => String "3"%char (render_uint d')
  | Decimal.D4 d' => String "4"%char (render_uint d')
  | Decimal.D5 d' => String "5"%char (render_uint d')
  | Decimal.D6 d' => String "6"%char (render_uint d')
  | Decimal.D7 d' => String "7"%char (render_uint d')
  | Decimal.D8 d' => String "8"%char (render_uint d')
  | Decimal.D9 d' => String "9"%char (render_uint d')
  end.

Definition digit_of (c : ascii) : option (Decimal.uint -> Decimal.uint) :=
  if Ascii.eqb c "0"%char then Some Decimal.D0
  else if Ascii.eqb c "1"%char then Some Decimal.D1
  else if Ascii.eqb c "2"%char then Some Decimal.D2
  else if Ascii.eqb c "3"%char then Some Decimal.D3
  else if Ascii.eqb c "4"%char then Some Decimal.D4
  else if Ascii.eqb c "5"%char then Some Decimal.D5
  else if Ascii.eqb c "6"%char then Some Decimal.D6
  else if Ascii.eqb c "7"%char then Some Decimal.D7
  else if Ascii.eqb c "8"%char then Some Decimal.D8
  else if Ascii.eqb c "9"%char then Some Decimal.D9
  else None.

(** The longest run of digits at the head of a text, and what follows. *)
Fixpoint read_digits (s : str) : Decimal.uint * str :=
  match s with
  | EmptyString => (Decimal.Nil, s)
  | String c s' =>
      match digit_of c with
      | Some d => let (ds, rest) := read_digits s' in (d ds, rest)
      | None => (Decimal.Nil, s)
      end
  end.

(** [repr] of an [int]. *)
Definition render_int (z : Z) : str :=
  (if (z <? 0)%Z then "-" else EmptyString) ++ render_uint (N.to_uint (Z.abs_N z)).

Definition uint_eqb (a b : Decimal.uint) : bool :=
  String.eqb (render_uint a) (render_uint b).

(** A run of digits as a number: at least one digit, and no zero in front
    of another digit. *)
Definition read_natural (s : str) : outcome (N * str) :=
  let (ds, rest) := read_digits s in
  match ds with
  | Decimal.Nil => Raise (Exception "ValueError" "Expecting value")
  | _ =>
      if uint_eqb (Decimal.unorm ds) ds then Ret (N.of_uint ds, rest)
      else Raise (Exception "ValueError" "Extra data")
  end.

(** A decimal integer with its sign. *)
Definition read_integer (s : str) : outcome (Z * str) :=
  let negative := head_is "-"%char s in
  match read_natural (if negative then behead s else s) with
  | Raise e => Raise e
  | Ret (n, rest) => Ret ((if negative then Z.opp (Z.of_N n) else Z.of_N n), rest)
  end.

Fixpoint strip_prefix (p s : str) : option str :=
  match p, s with
  | EmptyString, _ => Some s
  | String a p', String b s' => if Ascii.eqb a b then strip_prefix p' s' else None
  | String _ _, EmptyString => None
  end.

(** [d[k] = x] on a dictionary with string keys. *)
Fixpoint dict_set (k : str) (x : pyobj) (d : list (str * pyobj)) : list (str * pyobj) :=
  match d with
  | [] => [(k, x)]
  | (k', x') :: d' =>
      if String.eqb k k' then (k', x) :: d' else (k', x') :: dict_set k x d'
  end.

(** [dict(pairs)] *)
Definition dict_of_pairs (pairs : list (str * pyobj)) : pyobj :=
  PyDict (map (fun kx : str * pyobj => let (k, x) := kx in (PyStr k, x))
              (fold_left (fun d kx => dict_set (fst kx) (snd kx) d) pairs [])).

(** Nothing but white space; no white space at the head. *)
Definition blank (w : str) : bool := str_forallb is_space w.

Definition solid (s : str) : bool :=
  match s with
  | String c _ => negb (is_space c)
  | EmptyString => true
  end.

(** No string occurs twice. *)
Fixpoint distinct (l : list str) : bool :=
  match l with
  | [] => true
  | x :: l' => negb (existsb (String.eqb x) l') && distinct l'
  end.

Definition is_sign_or_digit (c : ascii) : bool := is_digit c || Ascii.eqb c "-"%char.

Module RefJson.

Definition decode_error {A} (msg : str) : outcome A :=
  Raise (Exception "JSONDecodeError" msg).

(** *** [json.dumps] *)

Definition hex_digit (n : N) : ascii :=
  if (n <? 10)%N then ascii_of_N (48 + n) else ascii_of_N (87 + n).

(** One character of a string literal, [ensure_ascii] style. *)
Definition escape_char (c : ascii) : str :=
  let n := N_of_ascii c in
  if Ascii.eqb c DQUOTE then String "\"%char (String DQUOTE EmptyString)
  else if Ascii.eqb c "\"%char then "\\"
  else if Ascii.eqb c LF then "\n"
  else if Ascii.eqb c CR then "\r"
  else if Ascii.eqb c "009"%char then "\t"
  else if Ascii.eqb c "008"%char then "\b"
  else if Ascii.eqb c "012"%char then "\f"
  else if ((n <? 32) || (n =? 127))%N then
    "\u00" ++ String (hex_digit (n / 16)) (String (hex_digit (n mod 16)) EmptyString)
  else String c EmptyString.

Fixpoint escape (s : str) : str :=
  match s with
  | EmptyString => EmptyString
  | String c s' => escape_char c ++ escape s'
  end.

Definition quote (s : str) : str :=
  String DQUOTE (escape s ++ String DQUOTE EmptyString).

Definition render_float (r : str) : str :=
  if String.eqb r "nan" then "NaN"
  else if String.eqb r "inf" then "Infinity"
  else if String.eqb r "-inf" then "-Infinity"
  else r.

(** The text of a dictionary key, when it is of a type [json] accepts. *)
Definition render_key (k : pyobj) : option str :=
  match k with
  | PyStr s => Some (quote s)
  | PyNone => Some (quote "null")
  | PyBool true => Some (quote "true")
  | PyBool false => Some (quote "false")
  | PyInt z => Some (quote (render_int z))
  | PyFloat r => Some (quote (render_float r))
  | PyList _ | PyDict _ => None
  end.

Definition newline_indent (indent : option nat) (level : nat) : str :=
  match indent with
  | None => EmptyString
  | Some k => nl ++ spaces (k * level)
  end.

Definition item_separator (indent : option nat) (level : nat) : str :=
  match indent with
  | None => ", "
  | Some _ => "," ++ newline_indent indent level
  end.

Fixpoint render (indent : option nat) (level : nat) (v : pyobj) : str :=
  match v with
  | PyNone => "null"
  | PyBool true => "true"
  | PyBool false => "false"
  | PyInt z => render_int z
  | PyFloat r => render_float r
  | PyStr s => quote s
  | PyList [] => "[]"
  | PyList items =>
      "[" ++ newline_indent indent (S level) ++
      join (item_separator indent (S level))
           (map (render indent (S level)) items) ++
      newline_indent indent level ++ "]"
  | PyDict [] => "{}"
  | PyDict items =>
      "{" ++ newline_indent indent (S level) ++
      join (item_separator indent (S level))
           (map (fun kv : pyobj * pyobj =>
                   let (k, x) := kv in
                   match render_key k with Some t => t | None => EmptyString end
                   ++ ": " ++ render indent (S level) x)
                items) ++
      newline_indent indent level ++ "}"
  end.

(** Every key is of a type [json.dumps] accepts. *)
Fixpoint keys_ok (v : pyobj) : bool :=
  match v with
  | PyList items => forallb keys_ok items
  | PyDict items =>
      forallb (fun kv : pyobj * pyobj =>
                 let (k, x) := kv in
                 match render_key k with Some _ => true | None => false end
                 && keys_ok x) items
  | _ => true
  end.

(** Every string is ASCII, and there is no float: the fragment. *)
Fixpoint in_fragment (v : pyobj) : bool :=
  match v with
  | PyFloat _ => false
  | PyStr s => str_forallb is_ascii s
  | PyList items => forallb in_fragment items
  | PyDict items =>
      forallb (fun kv : pyobj * pyobj =>
                 let (k, x) := kv in in_fragment k && in_fragment x) items
  | _ => true
  end.

Definition dumps (v : pyobj) (indent : option nat) : outcome str :=
  if negb (keys_ok v) then
    Raise (Exception "TypeError" "keys must be str, int, float, bool or None")
  else if negb (in_fragment v) then not_modelled "json.dumps: float or non-ASCII text"
  else Ret (render indent 0 v).

(** *** [json.loads] *)

Definition hex_value (c : ascii) : option N :=
  let n := N_of_ascii c in
  if ((48 <=? n) && (n <=? 57))%N then Some (n - 48)%N
  else if ((97 <=? n) && (n <=? 102))%N then Some (n - 87)%N
  else if ((65 <=? n) && (n <=? 70))%N then Some (n - 55)%N
  else None.

Definition hex4 (a b c d : ascii) : option N :=
  match hex_value a, hex_value b, hex_value c, hex_value d with
  | Some x, Some y, Some z, Some w => Some (((x * 16 + y) * 16 + z) * 16 + w)%N
  | _, _, _, _ => None
  end.

Definition unescape (e : ascii) : option ascii :=
  if Ascii.eqb e DQUOTE then Some DQUOTE
  else if Ascii.eqb e "\"%char then Some "\"%char
  else if Ascii.eqb e "/"%char then Some "/"%char
  else if Ascii.eqb e "b"%char then Some "008"%char
  else if Ascii.eqb e "f"%char then Some "012"%char
  else if Ascii.eqb e "n"%char then Some LF
  else if Ascii.eqb e "r"%char then Some CR
  else if Ascii.eqb e "t"%char then Some "009"%char
  else None.

Definition push (c : ascii) (r : outcome (str * str)) : outcome (str * str) :=
  match r with
  | Ret (s, rest) => Ret (String c s, rest)
  | Raise e => Raise e
  end.

(** The body of a string literal, after its opening quote. *)
Fixpoint scan_string (s : str) : outcome (str * str) :=
  match s with
  | EmptyString => decode_error "Unterminated string"
  | String c rest =>
      if Ascii.eqb c DQUOTE then Ret (EmptyString, rest)
      else if Ascii.eqb c "\"%char then
        match rest with
        | EmptyString => decode_error "Unterminated string"
        | String e rest1 =>
            if Ascii.eqb e "u"%char then
              match rest1 with
              | String h1 (String h2 (String h3 (String h4 rest5))) =>
                  match hex4 h1 h2 h3 h4 with
                  | Some n =>
                      if (n <? 128)%N then push (ascii_of_N n) (scan_string rest5)
                      else not_modelled "json.loads: non-ASCII escape"
                  | None => decode_error "Invalid \uXXXX escape"
                  end
              | _ => decode_error "Invalid \uXXXX escape"
              end
            else
              match unescape e with
              | Some ch => push ch (scan_string rest1)
              | None => decode_error "Invalid \escape"
              end
        end
      else if (N_of_ascii c <? 32)%N then decode_error "Invalid control character"
      else if negb (is_ascii c) then not_modelled "json.loads: non-ASCII text"
      else push c (scan_string rest)
  end.

(** A number: an integer, unless a fraction or an exponent follows. *)
Definition scan_number (s : str) : outcome (pyobj * str) :=
  match read_integer s with
  | Raise e => decode_error "Expecting value"
  | Ret (z, rest) =>
      if head_is "."%char rest || head_is "e"%char rest || head_is "E"%char rest
      then not_modelled "json.loads: float literal"
      else Ret (PyInt z, rest)
  end.

Definition out_of_fuel {A} : outcome A :=
  Raise (Exception "RecursionError" "maximum recursion depth exceeded").

(** The recursive-descent scanner.  Every function is entered at the first
    character of what it reads, white space already skipped. *)
Definition is_keyword (s : str) : bool :=
  match strip_prefix "NaN" s, strip_prefix "Infinity" s,
        strip_prefix "-Infinity" s with
  | None, None, None => false
  | _, _, _ => true
  end.

Fixpoint parse_value (fuel : nat) (s : str) : outcome (pyobj * str) :=
  match fuel with
  | 0 => out_of_fuel
  | S fuel' =>
      if head_is DQUOTE s then
        match scan_string (behead s) with
        | Ret (t, rest) => Ret (PyStr t, rest)
        | Raise e => Raise e
        end
      else if head_is "{"%char s then
        let inner := skip_ws (behead s) in
        if head_is "}"%char inner then Ret (PyDict [], behead inner)
        else
          match parse_members fuel' inner with
          | Ret (pairs, rest) => Ret (dict_of_pairs pairs, rest)
          | Raise e => Raise e
          end
      else if head_is "["%char s then
        let inner := skip_ws (behead s) in
        if head_is "]"%char inner then Ret (PyList [], behead inner)
        else
          match parse_elements fuel' inner with
          | Ret (items, rest) => Ret (PyList items, rest)
          | Raise e => Raise e
          end
      else
        match strip_prefix "null" s, strip_prefix "true" s,
              strip_prefix "false" s with
        | Some rest, _, _ => Ret (PyNone, rest)
        | _, Some rest, _ => Ret (PyBool true, rest)
        | _, _, Some rest => Ret (PyBool false, rest)
        | None, None, None =>
            if is_keyword s then not_modelled "json.loads: float constant"
            else scan_number s
        end
  end

with parse_elements (fuel : nat) (s : str) : outcome (list pyobj * str) :=
  match fuel with
  | 0 => out_of_fuel
  | S fuel' =>
      match parse_value fuel' s with
      | Raise e => Raise e
      | Ret (x, rest) =>
          let next := skip_ws rest in
          if head_is "]"%char next then Ret ([x], behead next)
          else if head_is ","%char next then
            match parse_elements fuel' (skip_ws (behead next)) with
            | Ret (xs, rest') => Ret (x :: xs, rest')
            | Raise e => Raise e
            end
          else decode_error "Expecting ',' delimiter"
      end
  end

with parse_members (fuel : nat) (s : str) : outcome (list (str * pyobj) * str) :=
  match fuel with
  | 0 => out_of_fuel
  | S fuel' =>
      if head_is DQUOTE s then
        match scan_string (behead s) with
        | Raise e => Raise e
        | Ret (k, rest) =>
            let colon := skip_ws rest in
            if head_is ":"%char colon then
              match parse_value fuel' (skip_ws (behead colon)) with
              | Raise e => Raise e
              | Ret (x, rest') =>
                  let next := skip_ws rest' in
                  if head_is "}"%char next then Ret ([(k, x)], behead next)
                  else if head_is ","%char next then
                    match parse_members fuel' (skip_ws (behead next)) with
                    | Ret (kxs, rest'') => Ret ((k, x) :: kxs, rest'')
                    | Raise e => Raise e
                    end
                  else decode_error "Expecting ',' delimiter"
              end
            else decode_error "Expecting ':' delimiter"
        end
      else decode_error "Expecting property name enclosed in double quotes"
  end.

Definition loads (text : str) : outcome pyobj :=
  let s := skip_ws text in
  match parse_value (S (String.length s)) s with
  | Raise e => Raise e
  | Ret (v, rest) =>
      match skip_ws rest with
      | EmptyString => Ret v
      | _ => decode_error "Extra data"
      end
  end.

Definition lib : Json := {| json_loads := loads; json_dumps := dumps |}.

(** *** What the round trip is stated with *)

(** What may follow a number: not a digit, and not the start of a
    fraction or of an exponent. *)
Definition delimited (rest : str) : bool :=
  negb (digit_headed rest) &&
  negb (head_is "."%char rest || head_is "e"%char rest || head_is "E"%char rest).

Definition number_headed (s : str) : bool :=
  digit_headed s || (head_is "-"%char s && digit_headed (behead s)).

(** The values [loads] builds: no float, ASCII strings, and dictionaries
    with distinct string keys. *)
Definition key_str (k : pyobj) : str :=
  match k with PyStr s => s | _ => EmptyString end.

Definition ascii_key (k : pyobj) : bool :=
  match k with PyStr s => str_forallb is_ascii s | _ => false end.

Fixpoint loadable (v : pyobj) : bool :=
  match v with
  | PyFloat _ => false
  | PyStr s => str_forallb is_ascii s
  | PyList items => forallb loadable items
  | PyDict items =>
      forallb (fun kv : pyobj * pyobj =>
                 let (k, x) := kv in ascii_key k && loadable x) items
      && distinct (map (fun kv : pyobj * pyobj => key_str (fst kv)) items)
  | _ => true
  end.

Definition member_ok (kv : pyobj * pyobj) : bool :=
  let (k, x) := kv in ascii_key k && loadable x.

Definition pair_of (kv : pyobj * pyobj) : str * pyobj := (key_str (fst kv), snd kv).

(** The text of one member of an object. *)
Definition member (indent : option nat) (level : nat) (kv : pyobj * pyobj) : str :=
  let (k, x) := kv in
  match render_key k with Some t => t | None => EmptyString end
  ++ ": " ++ render indent level x.

(** The first character of a rendered value. *)
Definition opens_value (s : str) : bool :=
  match s with
  | String c _ =>
      negb (is_space c) && negb (Ascii.eqb c "]"%char) && negb (Ascii.eqb c "}"%char)
  | EmptyString => false
  end.

Definition values_round_trip (n : nat) : Prop :=
  forall v indent lvl rest,
    loadable v = true ->
    String.length (render indent lvl v) <= n ->
    delimited rest = true ->
    parse_value n (render indent lvl v ++ rest) = Ret (v, rest).

Definition elements_round_trip (n : nat) : Prop :=
  forall x xs indent lvl rest,
    forallb loadable (x :: xs) = true ->
    S (String.length (join (item_separator indent (S lvl))
                           (map (render indent (S lvl)) (x :: xs)))) <= n ->
    parse_elements n
      (join (item_separator indent (S lvl)) (map (render indent (S lvl)) (x :: xs))
       ++ newline_indent indent lvl ++ String "]"%char rest)
    = Ret (x :: xs, rest).

Definition members_round_trip (n : nat) : Prop :=
  forall kv kvs indent lvl rest,
    forallb member_ok (kv :: kvs) = true ->
    S (String.length (join (item_separator indent (S lvl))
                           (map (member indent (S lvl)) (kv :: kvs)))) <= n ->
    parse_members n
      (join (item_separator indent (S lvl)) (map (member indent (S lvl)) (kv :: kvs))
       ++ newline_indent indent lvl ++ String "}"%char rest)
    = Ret (map pair_of (kv :: kvs), rest).

Definition pair_ok (kx : str * pyobj) : Prop :=
  str_forallb is_ascii (fst kx) = true /\ loadable (snd kx) = true.

Definition values_loadable (n : nat) : Prop :=
  forall s v rest, parse_value n s = Ret (v, rest) -> loadable v = true.

Definition elements_loadable (n : nat) : Prop :=
  forall s items rest,
    parse_elements n s = Ret (items, rest) -> forallb loadable items = true.

Definition members_loadable (n : nat) : Prop :=
  forall s pairs rest,
    parse_members n s = Ret (pairs, rest) -> Forall pair_ok pairs.

End RefJson.

(** [yaml] on block mappings of plain keys to integers

    The fragment: a document of lines [key: value], the key an identifier
    of lower-case letters, digits and underscores that no implicit tag
    claims, the value a decimal integer; and the empty mapping, which
    [safe_dump] writes in flow style. *)
Module RefYaml.

Definition scanner_error {A} (msg : str) : outcome A :=
  Raise (Exception "ScannerError" msg).

Definition is_key_char (c : ascii) : bool :=
  let n := N_of_ascii c in
  (((97 <=? n) && (n <=? 122)) || ((48 <=? n) && (n <=? 57)) || (n =? 95))%N.

(** The words the resolver reads as booleans or as null. *)
Definition reserved (k : str) : bool :=
  existsb (String.eqb k) ["yes"; "no"; "true"; "false"; "on"; "off"; "null"].

Definition plain_key (k : str) : bool :=
  str_forallb is_key_char k &&
  negb (digit_headed k) &&
  negb (String.eqb k EmptyString) &&
  negb (reserved k) &&
  (String.length k <? 100)%nat.

(** The key characters at the head of a line, and what follows. *)
Fixpoint read_key (s : str) : str * str :=
  match s with
  | String c s' =>
      if is_key_char c then let (k, rest) := read_key s' in (String c k, rest)
      else (EmptyString, s)
  | EmptyString => (EmptyString, s)
  end.

(** Does [": "] occur in the text? *)
Fixpoint has_indicator (s : str) : bool :=
  match s with
  | String c s' => (Ascii.eqb c ":"%char && head_is " "%char s') || has_indicator s'
  | EmptyString => false
  end.

Definition parse_line (line : str) : outcome (str * pyobj) :=
  let (k, rest) := read_key line in
  match strip_prefix ": " rest with
  | None => not_modelled "yaml.safe_load: not a plain key"
  | Some value =>
      if has_indicator value then
        scanner_error "mapping values are not allowed here"
      else if negb (plain_key k) then not_modelled "yaml.safe_load: key"
      else
        match read_integer value with
        | Ret (z, EmptyString) => Ret (k, PyInt z)
        | _ => not_modelled "yaml.safe_load: value"
        end
  end.

Fixpoint parse_lines (lines : list str) : outcome (list (str * pyobj)) :=
  match lines with
  | [] => Ret []
  | line :: lines' =>
      match parse_line line with
      | Raise e => Raise e
      | Ret kx =>
          match parse_lines lines' with
          | Raise e => Raise e
          | Ret kxs => Ret (kx :: kxs)
          end
      end
  end.

Definition empty_mapping : str := "{}" ++ nl.

Definition safe_load (text : str) : outcome pyobj :=
  if String.eqb text empty_mapping then Ret (PyDict [])
  else
    match text_lines text with
    | [] => not_modelled "yaml.safe_load: empty document"
    | lines =>
        match parse_lines lines with
        | Raise e => Raise e
        | Ret pairs => Ret (dict_of_pairs pairs)
        end
    end.

Definition item_ok (kv : pyobj * pyobj) : bool :=
  match kv with
  | (PyStr k, PyInt _) => plain_key k
  | _ => false
  end.

Definition dump_item (kv : pyobj * pyobj) : str :=
  match kv with
  | (PyStr k, PyInt z) => k ++ ": " ++ render_int z ++ nl
  | _ => EmptyString
  end.

Definition key_of (kv : pyobj * pyobj) : str :=
  match fst kv with PyStr k => k | _ => EmptyString end.

Fixpoint insert_sorted (kv : pyobj * pyobj) (l : list (pyobj * pyobj)) :
    list (pyobj * pyobj) :=
  match l with
  | [] => [kv]
  | kv' :: l' =>
      if String.leb (key_of kv) (key_of kv') then kv :: l
      else kv' :: insert_sorted kv l'
  end.

(** [sorted(mapping.items())] *)
Definition sorted_items (items : list (pyobj * pyobj)) : list (pyobj * pyobj) :=
  fold_right insert_sorted [] items.

Fixpoint concat_all (l : list str) : str :=
  match l with
  | [] => EmptyString
  | x :: l' => x ++ concat_all l'
  end.

Definition safe_dump (v : pyobj) (sort_keys : bool) : outcome str :=
  match v with
  | PyDict [] => Ret empty_mapping
  | PyDict items =>
      if forallb item_ok items then
        Ret (concat_all (map dump_item (if sort_keys then sorted_items items else items)))
      else not_modelled "yaml.safe_dump: item"
  | _ => not_modelled "yaml.safe_dump: not a mapping"
  end.

Definition lib : Yaml := {| yaml_safe_load := safe_load; yaml_safe_dump := safe_dump |}.

(** *** What the round trip is stated with *)

Definition line_of (kv : pyobj * pyobj) : str :=
  match kv with
  | (PyStr k, PyInt z) => k ++ ": " ++ render_int z
  | _ => EmptyString
  end.

Definition pair_of (kv : pyobj * pyobj) : str * pyobj := (key_of kv, snd kv).

Definition wrap (kx : str * pyobj) : pyobj * pyobj := let (k, x) := kx in (PyStr k, x).

Definition entry_ok (kx : str * pyobj) : Prop :=
  plain_key (fst kx) = true /\ exists z, snd kx = PyInt z.

End RefYaml.

(** * Concrete files, frames and answers *)

Definition quoted (s : str) : str := String DQUOTE (s ++ String DQUOTE EmptyString).

Definition file_of (file_name text : str) : UploadedFile :=
  mkFile file_name (list_byte_of_string text) 0.

Definition config_text : str :=
  "{" ++ quoted "debug" ++ ": true, " ++ quoted "ports" ++ ": [80, 443]}".

Definition config_value : pyobj :=
  PyDict [(PyStr "debug", PyBool true);
          (PyStr "ports", PyList [PyInt 80; PyInt 443])].

Definition deploy_text : str := "replicas: 3" ++ nl ++ "port: 8080" ++ nl.

Definition deploy_value : pyobj :=
  PyDict [(PyStr "replicas", PyInt 3); (PyStr "port", PyInt 8080)].

Definition prod_tf_text : str := "acl = public-read" ++ nl.


Definition inventory : DataFrame :=
  mkFrame ["host"; "port"] [["web"; "80"]; ["db"; "5432"]].

(** A frame with an empty cell and a cell that holds a double quote. *)
Definition labelled : DataFrame :=
  mkFrame ["size"] [[EmptyString]; ["19" ++ String DQUOTE " rack"]].

(** One column, one row, and a cell of two lines. *)
Definition notes_frame : DataFrame :=
  mkFrame ["note"] [["first line" ++ nl ++ "second line"]].


Definition connection_error : exn := Exception "APIConnectionError" "Connection error.".

Definition direct_response : Response :=
  mkResponse (Some "FOUND: 1 HIGH issue") (Some []) "Response(id='resp_1')".

(** No direct text; one output item with one text part. *)
Definition structured_response : Response :=
  mkResponse None
    (Some [mkItem (Some [mkPart (Some "FOUND: 1 HIGH issue")])])
    "Response(id='resp_2')".

(** No direct text; one output item whose content is an empty list. *)
Definition empty_content_response : Response :=
  mkResponse None (Some [mkItem (Some [])]) "Response(id='resp_3')".

Definition fresh_session (f : UploadedFile) : Session := mkSession (Some f) [] [].

(** [config_text] as [json.dumps(..., indent=2)] writes it. *)
Definition config_pretty : str :=
  "{" ++ nl ++
  "  " ++ quoted "debug" ++ ": true," ++ nl ++
  "  " ++ quoted "ports" ++ ": [" ++ nl ++
  "    80," ++ nl ++
  "    443" ++ nl ++
  "  ]" ++ nl ++
  "}".

(** A file that is not UTF-8. *)
Definition garbled : UploadedFile := mkFile "notes.txt" [xff] 0.

(** No direct text; an item without content, an item whose content is
    empty, and only then an item with a text. *)
Definition late_text_response : Response :=
  mkResponse None
    (Some [mkItem None; mkItem (Some []);
           mkItem (Some [mkPart (Some "FOUND: 1 HIGH issue")])])
    "Response(id='resp_4')".

Definition configured : Secrets := [("OPENAI_API_KEY", "sk-test")].

(** * Lemmas *)

(** ** Strings *)

Lemma endswith_nil (suffix : str) :
  endswith EmptyString suffix = String.eqb EmptyString suffix.
Proof. unfold endswith. apply orb_false_r. Qed.

Lemma endswith_cons (c : ascii) (s suffix : str) :
  endswith (String c s) suffix =
  String.eqb (String c s) suffix || endswith s suffix.
Proof. reflexivity. Qed.

Lemma endswith_refl (s : str) : endswith s s = true.
Proof.
  destruct s; [rewrite endswith_nil | rewrite endswith_cons];
    rewrite String.eqb_refl; reflexivity.
Qed.

Lemma endswith_suffix (s suffix : str) :
  endswith s suffix = true <-> exists p, s = p ++ suffix.
Proof.
  split.
  - induction s as [|c s IH]; intros E.
    + rewrite endswith_nil in E. apply String.eqb_eq in E. subst.
      exists EmptyString. reflexivity.
    + rewrite endswith_cons in E. apply orb_true_iff in E as [E|E].
      * apply String.eqb_eq in E. subst. exists EmptyString. reflexivity.
      * destruct (IH E) as [p ->]. exists (String c p). reflexivity.
  - intros [p ->]. induction p as [|c p IH].
    + apply endswith_refl.
    + change (String c p ++ suffix) with (String c (p ++ suffix)).
      rewrite endswith_cons, IH. apply orb_true_r.
Qed.

Lemma append_assoc (a b c : str) : (a ++ b) ++ c = a ++ b ++ c.
Proof. induction a as [|x a IH]; simpl; [reflexivity | now rewrite IH]. Qed.

Lemma append_nil_r (a : str) : a ++ EmptyString = a.
Proof. induction a as [|x a IH]; simpl; [reflexivity | now rewrite IH]. Qed.

Lemma length_app (p q : str) :
  String.length (p ++ q) = String.length p + String.length q.
Proof. induction p as [|c p IH]; simpl; [reflexivity | now rewrite IH]. Qed.

Lemma endswith_length (s suffix : str) :
  endswith s suffix = true -> String.length suffix <= String.length s.
Proof.
  intros E. apply endswith_suffix in E as [p ->].
  rewrite length_app. lia.
Qed.

(** Two suffixes of one string: the shorter is a suffix of the longer. *)
Lemma endswith_comparable (s a b : str) :
  endswith s a = true -> endswith s b = true ->
  String.length a <= String.length b -> endswith b a = true.
Proof.
  induction s as [|c s IH]; intros Ea Eb L.
  - rewrite endswith_nil in Ea, Eb.
    apply String.eqb_eq in Ea, Eb. subst. reflexivity.
  - rewrite endswith_cons in Ea, Eb.
    apply orb_true_iff in Eb as [Eb|Eb].
    + apply String.eqb_eq in Eb. subst b. rewrite endswith_cons. exact Ea.
    + apply orb_true_iff in Ea as [Ea|Ea].
      * apply String.eqb_eq in Ea. subst a.
        apply endswith_length in Eb. simpl in L. lia.
      * exact (IH Ea Eb L).
Qed.

Lemma lower_app (p q : str) : lower (p ++ q) = lower p ++ lower q.
Proof. induction p as [|c p IH]; simpl; [reflexivity | now rewrite IH]. Qed.

Lemma lower_idempotent (s : str) : lower (lower s) = lower s.
Proof.
  induction s as [|c s IH]; simpl; [reflexivity|]. rewrite IH. f_equal.
  destruct c as [[] [] [] [] [] [] [] []]; reflexivity.
Qed.

(** A name that ends in a lower-case extension still does once lowered. *)
Lemma endswith_lower (s ext : str) :
  lower ext = ext -> endswith s ext = true -> endswith (lower s) ext = true.
Proof.
  intros L E. apply endswith_suffix in E as [p ->].
  apply endswith_suffix. exists (lower p). now rewrite lower_app, L.
Qed.

(** A string that ends in [a] does not end in [b] when neither of [a] and
    [b] ends in the other. *)
Lemma endswith_exclusive (s a b : str) :
  endswith s a = true -> endswith b a = false -> endswith a b = false ->
  endswith s b = false.
Proof.
  intros Ea N1 N2. destruct (endswith s b) eqn:Eb; [|reflexivity].
  destruct (Nat.le_ge_cases (String.length a) (String.length b)) as [L|L].
  - rewrite (endswith_comparable s a b Ea Eb L) in N1. discriminate.
  - rewrite (endswith_comparable s b a Eb Ea L) in N2. discriminate.
Qed.

(** ** The content normalizer, branch by branch *)

Section Normalizer.
Context {pandas : Pandas} {json : Json} {yaml : Yaml}.

Lemma parse_xlsx (f : UploadedFile) :
  endswith (lower (name f)) ".xlsx" = true ->
  parse_uploaded_file f =
  (Ret match fst (read_excel (data f) (pos f)) with
       | Ret df => to_csv df false
       | Raise e => "ERROR reading Excel: " ++ exn_str e
       end,
   mkFile (name f) (data f) (snd (read_excel (data f) (pos f)))).
Proof.
  intros X. unfold parse_uploaded_file, bind, get. rewrite X.
  unfold try_except, bind, pd_read_excel, ret.
  destruct (read_excel (data f) (pos f)) as [[df|e] p]; reflexivity.
Qed.

Lemma parse_undecodable (f : UploadedFile) :
  endswith (lower (name f)) ".xlsx" = false ->
  utf8_valid (remaining f) = false ->
  parse_uploaded_file f = (Ret "Unable to decode file.", at_end f).
Proof.
  intros X U. unfold parse_uploaded_file, bind, get. rewrite X.
  unfold attempt, bind, file_read, lift, decode_utf8.
  fold (remaining f). rewrite U. reflexivity.
Qed.

Lemma decode_utf8_ret (b : bytes) (content : str) :
  decode_utf8 b = Ret content ->
  utf8_valid b = true /\ content = string_of_list_byte b.
Proof.
  unfold decode_utf8. destruct (utf8_valid b); [|discriminate].
  intros E. injection E as <-. split; reflexivity.
Qed.

Lemma decode_utf8_raise (b : bytes) (e : exn) :
  decode_utf8 b = Raise e -> utf8_valid b = false.
Proof. unfold decode_utf8. destruct (utf8_valid b); [discriminate|reflexivity]. Qed.

(** Once the bytes are decoded the cursor is back at the start, and the
    extension picks the parser. *)
Lemma parse_decoded (f : UploadedFile) (content : str) :
  endswith (lower (name f)) ".xlsx" = false ->
  decode_utf8 (remaining f) = Ret content ->
  parse_uploaded_file f =
  (Ret (if endswith_any (lower (name f)) [".yaml"; ".yml"] then
          or_else (obind (yaml_safe_load content)
                         (fun parsed => yaml_safe_dump parsed false)) content
        else if endswith (lower (name f)) ".json" then
          or_else (obind (json_loads content)
                         (fun parsed => json_dumps parsed (Some 2))) content
        else content),
   rewound f).
Proof.
  intros X D. unfold parse_uploaded_file, bind, get. rewrite X.
  unfold attempt, bind, file_read, lift. fold (remaining f). rewrite D.
  unfold file_seek, ret, rewound. cbn [name data pos].
  destruct (endswith_any (lower (name f)) [".yaml"; ".yml"]).
  - unfold try_except, bind, lift, obind, or_else.
    destruct (yaml_safe_load content) as [parsed|e]; [|reflexivity].
    destruct (yaml_safe_dump parsed false); reflexivity.
  - destruct (endswith (lower (name f)) ".json"); [|reflexivity].
    unfold try_except, bind, lift, obind, or_else.
    destruct (json_loads content) as [parsed|e]; [|reflexivity].
    destruct (json_dumps parsed (Some 2)); reflexivity.
Qed.

(** How a name that ends in one of the extensions is dispatched. *)
Lemma json_name (f : UploadedFile) :
  endswith (name f) ".json" = true ->
  endswith (lower (name f)) ".xlsx" = false /\
  endswith_any (lower (name f)) [".yaml"; ".yml"] = false /\
  endswith (lower (name f)) ".json" = true.
Proof.
  intros E. apply (endswith_lower _ _ eq_refl) in E.
  repeat split; [| |exact E].
  - now apply (endswith_exclusive _ ".json").
  - unfold endswith_any, existsb.
    rewrite (endswith_exclusive _ ".json" ".yaml" E eq_refl eq_refl).
    rewrite (endswith_exclusive _ ".json" ".yml" E eq_refl eq_refl).
    reflexivity.
Qed.

Lemma yaml_name (f : UploadedFile) :
  endswith_any (name f) [".yaml"; ".yml"] = true ->
  endswith (lower (name f)) ".xlsx" = false /\
  endswith_any (lower (name f)) [".yaml"; ".yml"] = true.
Proof.
  unfold endswith_any, existsb. rewrite orb_false_r. intros E.
  apply orb_true_iff in E as [E|E]; apply (endswith_lower _ _ eq_refl) in E.
  - split; [now apply (endswith_exclusive _ ".yaml")|].
    rewrite E. reflexivity.
  - split; [now apply (endswith_exclusive _ ".yml")|].
    rewrite E. apply orb_true_r.
Qed.

(** The normalizer reads the name only through [lower]. *)
Lemma parse_lowered (f : UploadedFile) :
  fst (parse_uploaded_file f) =
  fst (parse_uploaded_file (mkFile (lower (name f)) (data f) (pos f))) /\
  pos (snd (parse_uploaded_file f)) =
  pos (snd (parse_uploaded_file (mkFile (lower (name f)) (data f) (pos f)))).
Proof.
  set (g := mkFile (lower (name f)) (data f) (pos f)).
  assert (N : lower (name g) = lower (name f)) by apply lower_idempotent.
  assert (R : remaining g = remaining f) by reflexivity.
  destruct (endswith (lower (name f)) ".xlsx") eqn:X.
  - rewrite (parse_xlsx f X), (parse_xlsx g) by (rewrite N; exact X).
    split; reflexivity.
  - destruct (decode_utf8 (remaining f)) as [text|e] eqn:D.
    + rewrite (parse_decoded f text X D), (parse_decoded g text), N;
        [split; reflexivity | rewrite N; exact X | rewrite R; exact D].
    + apply decode_utf8_raise in D.
      rewrite (parse_undecodable f X D), (parse_undecodable g);
        [split; reflexivity | rewrite N; exact X | rewrite R; exact D].
Qed.

End Normalizer.


(** ** Reading the text of a response *)

(** The extraction chain, where it works. *)

Lemma extract_text_direct (r : Response) (t : str) :
  output_text r = Some t -> extract_text r = Ret t.
Proof. unfold extract_text. now intros ->. Qed.

Lemma scan_output_without_content (items : list OutputItem) (r : Response) :
  forallb (fun item => negb (hasattr (item_content item))) items = true ->
  scan_output items r = Ret (response_str r).
Proof.
  induction items as [|item items IH]; simpl; [reflexivity|].
  intros E. apply andb_true_iff in E as [E1 E2].
  apply negb_true_iff in E1. rewrite E1. exact (IH E2).
Qed.

Lemma extract_text_stringified (r : Response) (items : list OutputItem) :
  output_text r = None ->
  output r = Some items ->
  forallb (fun item => negb (hasattr (item_content item))) items = true ->
  extract_text r = Ret (response_str r).
Proof.
  intros T O E. unfold extract_text. rewrite T, O. simpl.
  now apply scan_output_without_content.
Qed.

Lemma extract_text_scanned
    (r : Response) (before after : list OutputItem)
    (t : str) (p : ContentPart) (more : list ContentPart) :
  output_text r = None ->
  forallb (fun item => negb (hasattr (item_content item))) before = true ->
  output r = Some (before ++ mkItem (Some (p :: more)) :: after)%list ->
  part_text p = Some t ->
  extract_text r = Ret t.
Proof.
  intros T E O P. unfold extract_text. rewrite T, O. simpl. clear O.
  induction before as [|item before IH]; simpl in *.
  - now rewrite P.
  - apply andb_true_iff in E as [E1 E2].
    apply negb_true_iff in E1. rewrite E1. exact (IH E2).
Qed.


(** ** The shape of the spreadsheet dump *)

Section CsvWriter.
Variable quote_cr : bool.

Lemma mentions_cons (c x : ascii) (s : str) :
  mentions c (String x s) = Ascii.eqb x c || mentions c s.
Proof. reflexivity. Qed.

Lemma mentions_app (c : ascii) (a b : str) :
  mentions c (a ++ b) = mentions c a || mentions c b.
Proof.
  unfold mentions. induction a as [|x a IH]; simpl; [reflexivity|].
  now rewrite IH, orb_assoc.
Qed.





Lemma split_on_app (sep : ascii) (a b : str) :
  mentions sep a = false ->
  split_on sep (a ++ String sep b) = a :: split_on sep b.
Proof.
  unfold mentions. induction a as [|x a IH]; simpl.
  - now rewrite Ascii.eqb_refl.
  - intros E. apply orb_false_iff in E as [E1 E2].
    now rewrite E1, (IH E2).
Qed.






Lemma split_lines (records : list str) :
  Forall (fun l => mentions LF l = false) records ->
  split_on LF (fold_right (fun l acc => l ++ nl ++ acc) EmptyString records) =
  (records ++ [EmptyString])%list.
Proof.
  induction 1 as [|l records Fl Fr IH]; simpl; [reflexivity|].
  rewrite (split_on_app _ _ _ Fl). f_equal. exact IH.
Qed.

Lemma text_lines_terminated (records : list str) :
  Forall (fun l => mentions LF l = false) records ->
  text_lines (fold_right (fun l acc => l ++ nl ++ acc) EmptyString records) =
  records.
Proof.
  intros F. unfold text_lines. rewrite (split_lines _ F).
  now rewrite last_last, removelast_last.
Qed.


End CsvWriter.





(** ** Reading the dump back as CSV *)

Section CsvReader.
Variable quote_cr : bool.












End CsvReader.


(** ** The reference [json] model round-trips *)

(** Induction on values, with the hypothesis for every item. *)
Section PyobjInd.
Variable P : pyobj -> Prop.
Hypothesis HNone : P PyNone.
Hypothesis HBool : forall b, P (PyBool b).
Hypothesis HInt : forall z, P (PyInt z).
Hypothesis HFloat : forall r, P (PyFloat r).
Hypothesis HStr : forall s, P (PyStr s).
Hypothesis HList : forall items, Forall P items -> P (PyList items).
Hypothesis HDict :
  forall items, Forall (fun kv => P (fst kv) /\ P (snd kv)) items -> P (PyDict items).

Fixpoint pyobj_nested_ind (v : pyobj) : P v :=
  match v with
  | PyNone => HNone
  | PyBool b => HBool b
  | PyInt z => HInt z
  | PyFloat r => HFloat r
  | PyStr s => HStr s
  | PyList items =>
      HList items
        ((fix all (l : list pyobj) : Forall P l :=
            match l with
            | [] => Forall_nil P
            | x :: l' => Forall_cons x (pyobj_nested_ind x) (all l')
            end) items)
  | PyDict items =>
      HDict items
        ((fix all (l : list (pyobj * pyobj)) :
            Forall (fun kv => P (fst kv) /\ P (snd kv)) l :=
            match l with
            | [] => Forall_nil _
            | kv :: l' =>
                Forall_cons kv
                  (conj (pyobj_nested_ind (fst kv)) (pyobj_nested_ind (snd kv)))
                  (all l')
            end) items)
  end.
End PyobjInd.

(** White space *)

Lemma skip_ws_blank (w s : str) : blank w = true -> skip_ws (w ++ s) = skip_ws s.
Proof.
  unfold blank. induction w as [|c w IH]; simpl; [reflexivity|].
  intros E. apply andb_true_iff in E as [E1 E2]. now rewrite E1, IH.
Qed.

Lemma skip_ws_solid (s : str) : solid s = true -> skip_ws s = s.
Proof.
  destruct s as [|c s]; simpl; [reflexivity|].
  intros E. apply negb_true_iff in E. now rewrite E.
Qed.

Lemma blank_spaces (n : nat) : blank (spaces n) = true.
Proof. induction n; simpl; [reflexivity | exact IHn]. Qed.

(** Digits *)

Lemma is_digit_cases (c : ascii) :
  is_digit c = true ->
  In c ["0"; "1"; "2"; "3"; "4"; "5"; "6"; "7"; "8"; "9"]%char.
Proof.
  destruct c as [[] [] [] [] [] [] [] []]; intros E;
    try discriminate E; simpl; auto 12.
Qed.

(** Settle a goal that computes once the digit [c] of [H : is_digit c = true]
    is known. *)
Ltac by_digit H :=
  apply is_digit_cases in H; simpl in H;
  repeat (destruct H as [<-|H]; [reflexivity|]); contradiction.

Lemma read_digits_render (d : Decimal.uint) (rest : str) :
  digit_headed rest = false ->
  read_digits (render_uint d ++ rest) = (d, rest).
Proof.
  intros R. induction d; simpl; try (rewrite IHd; reflexivity).
  destruct rest as [|c rest]; [reflexivity|].
  simpl in R. unfold read_digits.
  replace (digit_of c) with (@None (Decimal.uint -> Decimal.uint)); [reflexivity|].
  destruct c as [[] [] [] [] [] [] [] []]; try reflexivity; discriminate R.
Qed.

Lemma render_uint_headed (d : Decimal.uint) (rest : str) :
  d <> Decimal.Nil -> digit_headed (render_uint d ++ rest) = true.
Proof. destruct d; intros N; try reflexivity. congruence. Qed.

Lemma to_uint_not_nil (n : N) : N.to_uint n <> Decimal.Nil.
Proof.
  destruct n as [|p]; simpl; [discriminate|]. apply DecimalPos.Unsigned.to_uint_nonnil.
Qed.

Lemma to_uint_normal (n : N) : Decimal.unorm (N.to_uint n) = N.to_uint n.
Proof.
  rewrite <- (DecimalN.Unsigned.of_to n) at 2.
  now rewrite DecimalN.Unsigned.to_of.
Qed.

Lemma read_natural_render (n : N) (rest : str) :
  digit_headed rest = false ->
  read_natural (render_uint (N.to_uint n) ++ rest) = Ret (n, rest).
Proof.
  intros R. unfold read_natural. rewrite (read_digits_render _ _ R).
  rewrite to_uint_normal. unfold uint_eqb. rewrite String.eqb_refl.
  rewrite DecimalN.Unsigned.of_to.
  pose proof (to_uint_not_nil n). destruct (N.to_uint n); congruence.
Qed.

Lemma read_integer_render (z : Z) (rest : str) :
  digit_headed rest = false ->
  read_integer (render_int z ++ rest) = Ret (z, rest).
Proof.
  intros D.
  pose proof (render_uint_headed _ rest (to_uint_not_nil (Z.abs_N z))) as H.
  unfold read_integer, render_int. destruct (z <? 0)%Z eqn:Neg.
  - rewrite append_assoc. cbn [append head_is behead].
    rewrite Ascii.eqb_refl, (read_natural_render _ _ D).
    do 2 f_equal. apply Z.ltb_lt in Neg. rewrite N2Z.inj_abs_N. lia.
  - cbn [append].
    replace (head_is "-"%char (render_uint (N.to_uint (Z.abs_N z)) ++ rest)) with false.
    + rewrite (read_natural_render _ _ D).
      do 2 f_equal. apply Z.ltb_ge in Neg. rewrite N2Z.inj_abs_N. lia.
    + destruct (render_uint (N.to_uint (Z.abs_N z)) ++ rest) as [|c t]; [reflexivity|].
      cbn in *. by_digit H.
Qed.

(** Dictionaries *)

(** Building the dictionary from pairs with distinct keys changes
    nothing. *)

Lemma distinct_NoDup (l : list str) : distinct l = true <-> NoDup l.
Proof.
  induction l as [|x l IH]; simpl.
  - split; [constructor|reflexivity].
  - rewrite andb_true_iff, negb_true_iff, IH. split.
    + intros [N D]. constructor; [|exact D]. intros I.
      assert (existsb (String.eqb x) l = true); [|congruence].
      apply existsb_exists. exists x. split; [exact I|apply String.eqb_refl].
    + intros ND. inversion ND as [|? ? N D]; subst. split; [|exact D].
      destruct (existsb (String.eqb x) l) eqn:Ex; [|reflexivity].
      apply existsb_exists in Ex as (y & I & Eq).
      apply String.eqb_eq in Eq. subst. contradiction.
Qed.

Lemma dict_set_fresh (k : str) (x : pyobj) (d : list (str * pyobj)) :
  ~ In k (map fst d) -> dict_set k x d = (d ++ [(k, x)])%list.
Proof.
  induction d as [|[k' x'] d IH]; simpl; intros N; [reflexivity|].
  destruct (String.eqb_spec k k') as [->|_]; [tauto|].
  rewrite IH; [reflexivity|tauto].
Qed.

Lemma fold_dict_set (pairs acc : list (str * pyobj)) :
  NoDup (map fst (acc ++ pairs)%list) ->
  fold_left (fun d kx => dict_set (fst kx) (snd kx) d) pairs acc =
  (acc ++ pairs)%list.
Proof.
  revert acc. induction pairs as [|[k x] pairs IH]; intros acc ND; simpl.
  - now rewrite app_nil_r.
  - rewrite dict_set_fresh.
    + rewrite IH; rewrite <- app_assoc; [reflexivity|exact ND].
    + rewrite map_app in ND. simpl in ND. apply NoDup_remove_2 in ND.
      intros I. apply ND. apply in_or_app. now left.
Qed.

Lemma NoDup_snoc (k : str) (l : list str) :
  ~ In k l -> NoDup l -> NoDup (l ++ [k])%list.
Proof.
  intros N. induction 1 as [|x l Nx ND IH]; simpl.
  - constructor; [tauto|constructor].
  - constructor.
    + rewrite in_app_iff. simpl in *. intuition congruence.
    + apply IH. simpl in N. tauto.
Qed.

Lemma dict_set_keys (k : str) (x : pyobj) (d : list (str * pyobj)) :
  NoDup (map fst d) -> NoDup (map fst (dict_set k x d)).
Proof.
  destruct (in_dec string_dec k (map fst d)) as [I|N].
  - intros ND. replace (map fst (dict_set k x d)) with (map fst d); [exact ND|].
    clear ND. induction d as [|[k' x'] d IH]; simpl in *; [contradiction|].
    destruct (String.eqb_spec k k') as [->|Ne]; [reflexivity|].
    simpl. f_equal. apply IH. destruct I; [congruence|assumption].
  - intros ND. rewrite (dict_set_fresh _ _ _ N), map_app. simpl.
    now apply NoDup_snoc.
Qed.



Module RefJsonFacts.
Import RefJson.

(** Strings *)

Lemma scan_escape_char (c : ascii) (tail : str) :
  is_ascii c = true ->
  scan_string (escape_char c ++ tail) = push c (scan_string tail).
Proof.
  destruct c as [[] [] [] [] [] [] [] []]; intros A;
    try discriminate A; reflexivity.
Qed.

Lemma scan_escape (s rest : str) :
  str_forallb is_ascii s = true ->
  scan_string (escape s ++ String DQUOTE rest) = Ret (s, rest).
Proof.
  induction s as [|c s IH]; simpl; intros A; [reflexivity|].
  apply andb_true_iff in A as [A1 A2].
  now rewrite append_assoc, (scan_escape_char _ _ A1), (IH A2).
Qed.

Lemma scan_quote (s rest : str) :
  str_forallb is_ascii s = true ->
  scan_string (behead (quote s ++ rest)) = Ret (s, rest).
Proof.
  intros A. unfold quote.
  change (behead (String DQUOTE (escape s ++ String DQUOTE EmptyString) ++ rest))
    with ((escape s ++ String DQUOTE EmptyString) ++ rest).
  rewrite append_assoc.
  exact (scan_escape s rest A).
Qed.

(** Numbers *)

Lemma parse_value_number (n : nat) (s : str) :
  number_headed s = true -> parse_value (S n) s = scan_number s.
Proof.
  unfold number_headed. destruct s as [|c s]; [discriminate|].
  cbn [digit_headed head_is behead]. intros E.
  apply orb_true_iff in E as [E|E].
  - by_digit E.
  - apply andb_true_iff in E as [E1 E2]. apply Ascii.eqb_eq in E1. subst c.
    destruct s as [|d s]; [discriminate|]. cbn [digit_headed] in E2.
    by_digit E2.
Qed.

Lemma render_int_headed (z : Z) (rest : str) :
  number_headed (render_int z ++ rest) = true.
Proof.
  unfold render_int, number_headed.
  pose proof (render_uint_headed _ rest (to_uint_not_nil (Z.abs_N z))) as H.
  destruct (z <? 0)%Z.
  - rewrite append_assoc. cbn. now rewrite H.
  - cbn [append]. now rewrite H.
Qed.

Lemma scan_number_render (z : Z) (rest : str) :
  delimited rest = true ->
  scan_number (render_int z ++ rest) = Ret (PyInt z, rest).
Proof.
  unfold delimited. intros D. apply andb_true_iff in D as [D1 D2].
  apply negb_true_iff in D1, D2.
  unfold scan_number. now rewrite (read_integer_render _ _ D1), D2.
Qed.

Lemma render_list (indent : option nat) (lvl : nat) (x : pyobj) (xs : list pyobj) :
  render indent lvl (PyList (x :: xs)) =
  "[" ++ newline_indent indent (S lvl) ++
  join (item_separator indent (S lvl)) (map (render indent (S lvl)) (x :: xs)) ++
  newline_indent indent lvl ++ "]".
Proof. reflexivity. Qed.

Lemma render_dict (indent : option nat) (lvl : nat)
    (kv : pyobj * pyobj) (kvs : list (pyobj * pyobj)) :
  render indent lvl (PyDict (kv :: kvs)) =
  "{" ++ newline_indent indent (S lvl) ++
  join (item_separator indent (S lvl)) (map (member indent (S lvl)) (kv :: kvs)) ++
  newline_indent indent lvl ++ "}".
Proof. reflexivity. Qed.

Lemma blank_newline_indent (indent : option nat) (lvl : nat) :
  blank (newline_indent indent lvl) = true.
Proof.
  destruct indent as [k|]; [|reflexivity].
  unfold newline_indent, blank, nl. cbn. apply blank_spaces.
Qed.

Lemma item_separator_shape (indent : option nat) (lvl : nat) :
  exists w, item_separator indent lvl = String ","%char w /\ blank w = true.
Proof.
  destruct indent as [k|].
  - exists (newline_indent (Some k) lvl). split; [reflexivity|].
    apply blank_newline_indent.
  - exists " ". split; reflexivity.
Qed.

Lemma number_opens_value (s : str) : number_headed s = true -> opens_value s = true.
Proof.
  unfold number_headed. destruct s as [|c s]; [discriminate|].
  cbn [digit_headed head_is behead opens_value]. intros E.
  apply orb_true_iff in E as [E|E].
  - by_digit E.
  - apply andb_true_iff in E as [E _]. apply Ascii.eqb_eq in E. now subst.
Qed.

Lemma render_opens_value (indent : option nat) (lvl : nat) (v : pyobj) (rest : str) :
  loadable v = true -> opens_value (render indent lvl v ++ rest) = true.
Proof.
  destruct v as [|[]|z|r|s|[|x xs]|[|kv kvs]]; intros L; try reflexivity.
  - apply number_opens_value, render_int_headed.
  - discriminate L.
Qed.

Lemma opens_value_solid (s : str) : opens_value s = true -> skip_ws s = s.
Proof.
  intros O. apply skip_ws_solid. destruct s as [|c s]; [reflexivity|].
  cbn in *. now destruct (is_space c).
Qed.

Lemma opens_value_head (s : str) :
  opens_value s = true -> head_is "]"%char s = false /\ head_is "}"%char s = false.
Proof.
  destruct s as [|c s]; [discriminate|]. cbn. intros O.
  apply andb_true_iff in O as [O O2]. apply andb_true_iff in O as [_ O1].
  apply negb_true_iff in O1, O2. now rewrite O1, O2.
Qed.

Lemma render_nonempty (indent : option nat) (lvl : nat) (v : pyobj) :
  loadable v = true -> 1 <= String.length (render indent lvl v).
Proof.
  intros L. pose proof (render_opens_value indent lvl v EmptyString L) as O.
  rewrite append_nil_r in O. destruct (render indent lvl v); [discriminate|].
  simpl. lia.
Qed.

Lemma member_quote (indent : option nat) (lvl : nat) (kv : pyobj * pyobj) :
  member_ok kv = true ->
  member indent lvl kv =
  quote (key_str (fst kv)) ++ ": " ++ render indent lvl (snd kv) /\
  str_forallb is_ascii (key_str (fst kv)) = true /\
  loadable (snd kv) = true.
Proof.
  destruct kv as [k x]. cbn. intros E. apply andb_true_iff in E as [E1 E2].
  destruct k; try discriminate E1. auto.
Qed.

(** The scanner, one level unfolded. *)

Lemma parse_elements_S (n : nat) (s : str) :
  parse_elements (S n) s =
  match parse_value n s with
  | Raise e => Raise e
  | Ret (x, rest) =>
      let next := skip_ws rest in
      if head_is "]"%char next then Ret ([x], behead next)
      else if head_is ","%char next then
        match parse_elements n (skip_ws (behead next)) with
        | Ret (xs, rest') => Ret (x :: xs, rest')
        | Raise e => Raise e
        end
      else decode_error "Expecting ',' delimiter"
  end.
Proof. reflexivity. Qed.

Lemma parse_members_S (n : nat) (s : str) :
  parse_members (S n) s =
  if head_is DQUOTE s then
    match scan_string (behead s) with
    | Raise e => Raise e
    | Ret (k, rest) =>
        let colon := skip_ws rest in
        if head_is ":"%char colon then
          match parse_value n (skip_ws (behead colon)) with
          | Raise e => Raise e
          | Ret (x, rest') =>
              let next := skip_ws rest' in
              if head_is "}"%char next then Ret ([(k, x)], behead next)
              else if head_is ","%char next then
                match parse_members n (skip_ws (behead next)) with
                | Ret (kxs, rest'') => Ret ((k, x) :: kxs, rest'')
                | Raise e => Raise e
                end
              else decode_error "Expecting ',' delimiter"
          end
        else decode_error "Expecting ':' delimiter"
    end
  else decode_error "Expecting property name enclosed in double quotes".
Proof. reflexivity. Qed.

Lemma parse_value_list (n : nat) (s : str) :
  parse_value (S n) (String "["%char s) =
  if head_is "]"%char (skip_ws s) then Ret (PyList [], behead (skip_ws s))
  else
    match parse_elements n (skip_ws s) with
    | Ret (items, rest) => Ret (PyList items, rest)
    | Raise e => Raise e
    end.
Proof. reflexivity. Qed.

Lemma parse_value_dict (n : nat) (s : str) :
  parse_value (S n) (String "{"%char s) =
  if head_is "}"%char (skip_ws s) then Ret (PyDict [], behead (skip_ws s))
  else
    match parse_members n (skip_ws s) with
    | Ret (pairs, rest) => Ret (dict_of_pairs pairs, rest)
    | Raise e => Raise e
    end.
Proof. reflexivity. Qed.

Lemma parse_value_string (n : nat) (s : str) :
  parse_value (S n) (String DQUOTE s) =
  match scan_string s with
  | Ret (t, rest) => Ret (PyStr t, rest)
  | Raise e => Raise e
  end.
Proof. reflexivity. Qed.

Lemma join_two (sep a b : str) (l : list str) :
  join sep (a :: b :: l) = a ++ sep ++ join sep (b :: l).
Proof. reflexivity. Qed.

Lemma join_head (sep a : str) (l : list str) :
  exists t, join sep (a :: l) = a ++ t.
Proof.
  destruct l as [|b l].
  - exists EmptyString. simpl. now rewrite append_nil_r.
  - exists (sep ++ join sep (b :: l)). reflexivity.
Qed.

Lemma skip_to_close (indent : option nat) (lvl : nat) (c : ascii) (rest : str) :
  is_space c = false ->
  skip_ws (newline_indent indent lvl ++ String c rest) = String c rest.
Proof.
  intros C. rewrite (skip_ws_blank _ _ (blank_newline_indent indent lvl)).
  apply skip_ws_solid. cbn. now rewrite C.
Qed.

Lemma delimited_close (indent : option nat) (lvl : nat) (c : ascii) (rest : str) :
  c = "]"%char \/ c = "}"%char ->
  delimited (newline_indent indent lvl ++ String c rest) = true.
Proof. intros [->| ->]; destruct indent; reflexivity. Qed.

Lemma skip_ws_comma (t : str) : skip_ws (String ","%char t) = String ","%char t.
Proof. reflexivity. Qed.

Lemma comma_head (t : str) :
  head_is "]"%char (String ","%char t) = false /\
  head_is "}"%char (String ","%char t) = false /\
  head_is ","%char (String ","%char t) = true.
Proof. repeat split. Qed.

Lemma elements_step (n : nat) :
  values_round_trip n -> elements_round_trip n -> elements_round_trip (S n).
Proof.
  intros V E x xs indent lvl rest L Len.
  rewrite parse_elements_S.
  cbn [forallb] in L. apply andb_true_iff in L as [Lx Lxs].
  destruct (item_separator_shape indent (S lvl)) as (w & Sep & Bw).
  pose proof (render_nonempty indent (S lvl) x Lx) as Nx.
  destruct xs as [|y ys].
  - cbn [map join] in *.
    rewrite (V x indent (S lvl)); [|exact Lx|lia|now apply delimited_close; left].
    cbv zeta. rewrite skip_to_close by reflexivity. reflexivity.
  - cbn [map] in *. rewrite join_two in *. rewrite Sep in *.
    rewrite !append_assoc. rewrite !length_app in Len. cbn [append String.length] in *.
    rewrite (V x indent (S lvl)); [|exact Lx|lia|reflexivity].
    cbv zeta. rewrite skip_ws_comma.
    destruct (comma_head (w ++
      join (String ","%char w) (render indent (S lvl) y :: map (render indent (S lvl)) ys)
      ++ newline_indent indent lvl ++ String "]"%char rest)) as (-> & _ & ->).
    cbn [behead]. rewrite (skip_ws_blank _ _ Bw).
    assert (O : forall t, opens_value
               (join (String ","%char w) (render indent (S lvl) y :: map (render indent (S lvl)) ys) ++ t) = true).
    { intros t. destruct (join_head (String ","%char w) (render indent (S lvl) y)
                            (map (render indent (S lvl)) ys)) as [u ->].
      rewrite append_assoc. apply render_opens_value.
      cbn [forallb] in Lxs. now apply andb_true_iff in Lxs as [? _]. }
    rewrite (opens_value_solid _ (O _)).
    pose proof (E y ys indent lvl rest Lxs) as IH.
    cbn [map] in IH. rewrite Sep in IH. rewrite IH; [reflexivity|lia].
Qed.

Lemma quote_head (k t : str) : head_is DQUOTE (quote k ++ t) = true.
Proof. reflexivity. Qed.

Lemma colon_space (t : str) : ": " ++ t = String ":"%char (String " "%char t).
Proof. reflexivity. Qed.

Lemma skip_ws_colon (t : str) : skip_ws (String ":"%char t) = String ":"%char t.
Proof. reflexivity. Qed.

Lemma skip_ws_space (t : str) : skip_ws (String " "%char t) = skip_ws t.
Proof. reflexivity. Qed.

Lemma colon_head (t : str) : head_is ":"%char (String ":"%char t) = true.
Proof. reflexivity. Qed.

Lemma brace_head (t : str) : head_is "}"%char (String "}"%char t) = true.
Proof. reflexivity. Qed.

Lemma members_step (n : nat) :
  values_round_trip n -> members_round_trip n -> members_round_trip (S n).
Proof.
  intros V Mb kv kvs indent lvl rest L Len.
  rewrite parse_members_S.
  cbn [forallb] in L. apply andb_true_iff in L as [Lkv Lkvs].
  destruct (member_quote indent (S lvl) kv Lkv) as (Mk & Ak & Lx).
  destruct (item_separator_shape indent (S lvl)) as (w & Sep & Bw).
  pose proof (render_nonempty indent (S lvl) (snd kv) Lx) as Nx.
  destruct kvs as [|kv' kvs'].
  - cbn [map join] in *. rewrite Mk in *.
    rewrite !append_assoc. rewrite quote_head, (scan_quote _ _ Ak).
    cbv zeta. rewrite colon_space, skip_ws_colon, colon_head.
    cbn [behead]. rewrite skip_ws_space.
    rewrite (opens_value_solid _ (render_opens_value _ _ _ _ Lx)).
    rewrite !length_app in Len. cbn [String.length] in Len.
    rewrite (V (snd kv) indent (S lvl)); [|exact Lx|lia|now apply delimited_close; right].
    rewrite skip_to_close by reflexivity. now rewrite brace_head.
  - cbn [map] in *. rewrite join_two in *. rewrite Sep, Mk in *.
    rewrite !append_assoc. rewrite quote_head, (scan_quote _ _ Ak).
    cbv zeta. rewrite colon_space, skip_ws_colon, colon_head.
    cbn [behead]. rewrite skip_ws_space.
    rewrite (opens_value_solid _ (render_opens_value _ _ _ _ Lx)).
    rewrite !length_app in Len. cbn [append String.length] in *.
    rewrite (V (snd kv) indent (S lvl)); [|exact Lx|lia|reflexivity].
    rewrite skip_ws_comma.
    destruct (comma_head (w ++
      join (String ","%char w) (member indent (S lvl) kv' :: map (member indent (S lvl)) kvs')
      ++ newline_indent indent lvl ++ String "}"%char rest)) as (_ & -> & ->).
    cbn [behead]. rewrite (skip_ws_blank _ _ Bw).
    assert (O : forall t, solid
               (join (String ","%char w) (member indent (S lvl) kv' :: map (member indent (S lvl)) kvs') ++ t) = true).
    { intros t. destruct (join_head (String ","%char w) (member indent (S lvl) kv')
                            (map (member indent (S lvl)) kvs')) as [u ->].
      cbn [forallb] in Lkvs. apply andb_true_iff in Lkvs as [Lkv' _].
      destruct (member_quote indent (S lvl) kv' Lkv') as (-> & _ & _).
      reflexivity. }
    rewrite (skip_ws_solid _ (O _)).
    pose proof (Mb kv' kvs' indent lvl rest Lkvs) as IH.
    cbn [map] in IH. rewrite Sep in IH. rewrite IH; [reflexivity|lia].
Qed.

Lemma dict_of_pairs_members (items : list (pyobj * pyobj)) :
  forallb member_ok items = true ->
  distinct (map (fun kv : pyobj * pyobj => key_str (fst kv)) items) = true ->
  dict_of_pairs (map pair_of items) = PyDict items.
Proof.
  intros M D. unfold dict_of_pairs. rewrite (fold_dict_set _ []).
  - f_equal. cbn [app]. rewrite map_map.
    induction items as [|[k x] items IH]; [reflexivity|].
    cbn [forallb map] in *. apply andb_true_iff in M as [Mk M].
    apply andb_true_iff in D as [_ D]. rewrite (IH M D). f_equal.
    unfold member_ok in Mk. apply andb_true_iff in Mk as [Mk _].
    destruct k; try discriminate Mk. reflexivity.
  - cbn [app]. rewrite map_map. cbn [pair_of fst]. now apply distinct_NoDup.
Qed.

Lemma values_step (n : nat) :
  elements_round_trip n -> members_round_trip n -> values_round_trip (S n).
Proof.
  intros E Mb v indent lvl rest L Len D.
  destruct v as [|[]|z|r|s|[|x xs]|[|kv kvs]]; try reflexivity.
  - rewrite parse_value_number by apply render_int_headed.
    now apply scan_number_render.
  - discriminate L.
  - cbn [render]. unfold quote. cbn [append]. rewrite parse_value_string.
    rewrite append_assoc. cbn [append]. now rewrite scan_escape.
  - rewrite render_list in *. cbn [append] in *.
    rewrite !append_assoc. cbn [append]. rewrite parse_value_list.
    rewrite (skip_ws_blank _ _ (blank_newline_indent indent (S lvl))).
    cbn [loadable] in L.
    assert (O : forall t, opens_value
               (join (item_separator indent (S lvl))
                     (map (render indent (S lvl)) (x :: xs)) ++ t) = true).
    { intros t. cbn [map].
      destruct (join_head (item_separator indent (S lvl)) (render indent (S lvl) x)
                  (map (render indent (S lvl)) xs)) as [u ->].
      rewrite append_assoc. apply render_opens_value.
      cbn [forallb] in L. now apply andb_true_iff in L as [? _]. }
    rewrite (opens_value_solid _ (O _)).
    destruct (opens_value_head _ (O (newline_indent indent lvl ++ String "]"%char rest)))
      as [-> _].
    rewrite (E x xs indent lvl rest L); [reflexivity|].
    cbn [String.length] in Len. rewrite !length_app in Len.
    cbn [String.length] in Len. lia.
  - rewrite render_dict in *. cbn [append] in *.
    rewrite !append_assoc. cbn [append]. rewrite parse_value_dict.
    rewrite (skip_ws_blank _ _ (blank_newline_indent indent (S lvl))).
    cbn [loadable] in L. apply andb_true_iff in L as [L Dk].
    fold member_ok in L.
    assert (O : forall t, head_is "}"%char
               (join (item_separator indent (S lvl))
                     (map (member indent (S lvl)) (kv :: kvs)) ++ t) = false /\
             solid (join (item_separator indent (S lvl))
                     (map (member indent (S lvl)) (kv :: kvs)) ++ t) = true).
    { intros t. cbn [map].
      destruct (join_head (item_separator indent (S lvl)) (member indent (S lvl) kv)
                  (map (member indent (S lvl)) kvs)) as [u ->].
      cbn [forallb] in L. apply andb_true_iff in L as [Lkv _].
      destruct (member_quote indent (S lvl) kv Lkv) as (-> & _ & _).
      split; reflexivity. }
    destruct (O (newline_indent indent lvl ++ String "}"%char rest)) as [Hd Sd].
    rewrite (skip_ws_solid _ Sd), Hd.
    rewrite (Mb kv kvs indent lvl rest L).
    + now rewrite (dict_of_pairs_members _ L Dk).
    + cbn [String.length] in Len. rewrite !length_app in Len.
      cbn [String.length] in Len. lia.
Qed.

Lemma round_trip_at (n : nat) :
  values_round_trip n /\ elements_round_trip n /\ members_round_trip n.
Proof.
  induction n as [|n (V & E & Mb)].
  - repeat split.
    + intros v indent lvl rest L Len _.
      pose proof (render_nonempty indent lvl v L). lia.
    + intros x xs indent lvl rest _ Len. lia.
    + intros kv kvs indent lvl rest _ Len. lia.
  - repeat split.
    + now apply values_step.
    + now apply elements_step.
    + now apply members_step.
Qed.

(** Rendering a loadable value and loading the text gives the value. *)
Lemma loads_render (v : pyobj) (indent : option nat) :
  loadable v = true -> loads (render indent 0 v) = Ret v.
Proof.
  intros L. unfold loads.
  pose proof (render_opens_value indent 0 v EmptyString L) as O.
  rewrite append_nil_r in O. rewrite (opens_value_solid _ O).
  destruct (round_trip_at (S (String.length (render indent 0 v)))) as (V & _ & _).
  pose proof (V v indent 0 EmptyString L) as R. rewrite append_nil_r in R.
  rewrite R; [reflexivity|lia|reflexivity].
Qed.

(** What [loads] returns is loadable. *)

Lemma push_ret (c : ascii) (r : outcome (str * str)) (t rest : str) :
  push c r = Ret (t, rest) ->
  exists t', t = String c t' /\ r = Ret (t', rest).
Proof.
  destruct r as [[t' rest']|e]; simpl; intros E; [|discriminate].
  injection E as <- <-. eauto.
Qed.

Lemma scan_string_cons (c : ascii) (rest : str) :
  scan_string (String c rest) =
  if Ascii.eqb c DQUOTE then Ret (EmptyString, rest)
  else if Ascii.eqb c "\"%char then
    match rest with
    | EmptyString => decode_error "Unterminated string"
    | String e rest1 =>
        if Ascii.eqb e "u"%char then
          match rest1 with
          | String h1 (String h2 (String h3 (String h4 rest5))) =>
              match hex4 h1 h2 h3 h4 with
              | Some n =>
                  if (n <? 128)%N then push (ascii_of_N n) (scan_string rest5)
                  else not_modelled "json.loads: non-ASCII escape"
              | None => decode_error "Invalid \uXXXX escape"
              end
          | _ => decode_error "Invalid \uXXXX escape"
          end
        else
          match unescape e with
          | Some ch => push ch (scan_string rest1)
          | None => decode_error "Invalid \escape"
          end
    end
  else if (N_of_ascii c <? 32)%N then decode_error "Invalid control character"
  else if negb (is_ascii c) then not_modelled "json.loads: non-ASCII text"
  else push c (scan_string rest).
Proof. reflexivity. Qed.

Lemma unescape_ascii (e ch : ascii) : unescape e = Some ch -> is_ascii ch = true.
Proof.
  unfold unescape.
  repeat match goal with
         | |- context [if ?b then _ else _] => destruct b
         end; intros E; try discriminate E; injection E as <-; reflexivity.
Qed.

Lemma small_code_ascii (n : N) : (n <? 128)%N = true -> is_ascii (ascii_of_N n) = true.
Proof.
  intros L. unfold is_ascii. apply N.ltb_lt in L.
  rewrite N_ascii_embedding; [now apply N.ltb_lt | lia].
Qed.

Lemma scan_string_ascii (n : nat) :
  forall s t rest,
    String.length s <= n ->
    scan_string s = Ret (t, rest) -> str_forallb is_ascii t = true.
Proof.
  induction n as [|n IH]; intros s t rest Len E.
  - destruct s; [discriminate E | simpl in Len; lia].
  - destruct s as [|c s]; [discriminate E|].
    rewrite scan_string_cons in E. cbn [String.length] in Len.
    destruct (Ascii.eqb c DQUOTE); [injection E as <- <-; reflexivity|].
    destruct (Ascii.eqb c "\"%char).
    + destruct s as [|e s1]; [discriminate E|].
      destruct (Ascii.eqb e "u"%char).
      * destruct s1 as [|h1 [|h2 [|h3 [|h4 s5]]]]; try discriminate E.
        destruct (hex4 h1 h2 h3 h4) as [code|]; [|discriminate E].
        destruct (code <? 128)%N eqn:Small; [|discriminate E].
        apply push_ret in E as (t' & -> & E). cbn [str_forallb].
        rewrite (small_code_ascii _ Small).
        apply (IH s5 t' rest); [cbn [String.length] in Len; lia | exact E].
      * destruct (unescape e) as [ch|] eqn:U; [|discriminate E].
        apply push_ret in E as (t' & -> & E). cbn [str_forallb].
        rewrite (unescape_ascii _ _ U).
        apply (IH s1 t' rest); [cbn [String.length] in Len; lia | exact E].
    + destruct (N_of_ascii c <? 32)%N; [discriminate E|].
      destruct (is_ascii c) eqn:A; [|discriminate E]. cbn [negb] in E.
      apply push_ret in E as (t' & -> & E). cbn [str_forallb]. rewrite A.
      apply (IH s t' rest); [lia | exact E].
Qed.

Lemma dict_set_ok (k : str) (x : pyobj) (d : list (str * pyobj)) :
  pair_ok (k, x) -> Forall pair_ok d -> Forall pair_ok (dict_set k x d).
Proof.
  intros Ok. induction 1 as [|[k' x'] d Okd F IH]; simpl.
  - now constructor.
  - destruct (String.eqb_spec k k') as [->|_]; constructor; auto.
Qed.

Lemma loadable_dict_of_pairs (pairs : list (str * pyobj)) :
  Forall pair_ok pairs -> loadable (dict_of_pairs pairs) = true.
Proof.
  intros F. unfold dict_of_pairs.
  assert (Inv : forall acc,
             Forall pair_ok acc -> NoDup (map fst acc) ->
             Forall pair_ok (fold_left (fun d kx => dict_set (fst kx) (snd kx) d) pairs acc) /\
             NoDup (map fst (fold_left (fun d kx => dict_set (fst kx) (snd kx) d) pairs acc))).
  { induction F as [|[k x] pairs Ok F IH]; intros acc Fa Na; simpl; [auto|].
    apply IH; [now apply dict_set_ok | now apply dict_set_keys]. }
  destruct (Inv [] (Forall_nil _) (NoDup_nil _)) as [Fd Nd].
  set (d := fold_left _ pairs []) in *. clearbody d.
  cbn [loadable]. apply andb_true_iff. split.
  - apply forallb_forall. intros kv I. apply in_map_iff in I as ([k x] & <- & I).
    rewrite Forall_forall in Fd. destruct (Fd _ I) as [A Lx]. cbn in *.
    now rewrite A, Lx.
  - rewrite map_map. apply distinct_NoDup.
    replace (map (fun x : str * pyobj => key_str (fst (let (k, x0) := x in (PyStr k, x0)))) d)
      with (map fst d); [exact Nd|].
    apply map_ext. now intros [k x].
Qed.

Lemma scan_number_loadable (s : str) (v : pyobj) (rest : str) :
  scan_number s = Ret (v, rest) -> loadable v = true.
Proof.
  unfold scan_number.
  destruct (read_integer s) as [[z r]|e]; [|discriminate].
  destruct (_ || _); [discriminate|]. intros E. injection E as <- <-. reflexivity.
Qed.

Lemma parse_value_S (n : nat) (s : str) :
  parse_value (S n) s =
  if head_is DQUOTE s then
    match scan_string (behead s) with
    | Ret (t, rest) => Ret (PyStr t, rest)
    | Raise e => Raise e
    end
  else if head_is "{"%char s then
    let inner := skip_ws (behead s) in
    if head_is "}"%char inner then Ret (PyDict [], behead inner)
    else
      match parse_members n inner with
      | Ret (pairs, rest) => Ret (dict_of_pairs pairs, rest)
      | Raise e => Raise e
      end
  else if head_is "["%char s then
    let inner := skip_ws (behead s) in
    if head_is "]"%char inner then Ret (PyList [], behead inner)
    else
      match parse_elements n inner with
      | Ret (items, rest) => Ret (PyList items, rest)
      | Raise e => Raise e
      end
  else
    match strip_prefix "null" s, strip_prefix "true" s, strip_prefix "false" s with
    | Some rest, _, _ => Ret (PyNone, rest)
    | _, Some rest, _ => Ret (PyBool true, rest)
    | _, _, Some rest => Ret (PyBool false, rest)
    | None, None, None =>
        if is_keyword s then not_modelled "json.loads: float constant"
        else scan_number s
    end.
Proof. reflexivity. Qed.

Lemma loadable_at (n : nat) :
  values_loadable n /\ elements_loadable n /\ members_loadable n.
Proof.
  induction n as [|n (V & E & Mb)]; [repeat split; intros ? ? ? H; discriminate H|].
  repeat split.
  - intros s v rest H. rewrite parse_value_S in H. cbv zeta in H.
    destruct (head_is DQUOTE s).
    { destruct (scan_string (behead s)) as [[t r]|e] eqn:Sc; [|discriminate H].
      injection H as <- <-. cbn [loadable].
      now apply (scan_string_ascii _ _ _ _ (le_n _) Sc). }
    destruct (head_is "{"%char s).
    { destruct (head_is "}"%char _); [injection H as <- <-; reflexivity|].
      destruct (parse_members n _) as [[pairs r]|e] eqn:Pm; [|discriminate H].
      injection H as <- <-. apply loadable_dict_of_pairs. now apply (Mb _ _ _ Pm). }
    destruct (head_is "["%char s).
    { destruct (head_is "]"%char _); [injection H as <- <-; reflexivity|].
      destruct (parse_elements n _) as [[items r]|e] eqn:Pe; [|discriminate H].
      injection H as <- <-. cbn [loadable]. now apply (E _ _ _ Pe). }
    destruct (strip_prefix "null" s); [injection H as <- <-; reflexivity|].
    destruct (strip_prefix "true" s); [injection H as <- <-; reflexivity|].
    destruct (strip_prefix "false" s); [injection H as <- <-; reflexivity|].
    destruct (is_keyword s); [discriminate H|].
    now apply (scan_number_loadable _ _ _ H).
  - intros s items rest H. rewrite parse_elements_S in H. cbv zeta in H.
    destruct (parse_value n s) as [[x r]|e] eqn:Pv; [|discriminate H].
    pose proof (V _ _ _ Pv) as Lx.
    destruct (head_is "]"%char _).
    { injection H as <- <-. cbn. now rewrite Lx. }
    destruct (head_is ","%char _); [|discriminate H].
    destruct (parse_elements n _) as [[xs r']|e] eqn:Pe; [|discriminate H].
    injection H as <- <-. cbn [forallb]. now rewrite Lx, (E _ _ _ Pe).
  - intros s pairs rest H. rewrite parse_members_S in H. cbv zeta in H.
    destruct (head_is DQUOTE s); [|discriminate H].
    destruct (scan_string (behead s)) as [[k r]|e] eqn:Sc; [|discriminate H].
    pose proof (scan_string_ascii _ _ _ _ (le_n _) Sc) as Ak.
    destruct (head_is ":"%char _); [|discriminate H].
    destruct (parse_value n _) as [[x r']|e] eqn:Pv; [|discriminate H].
    pose proof (V _ _ _ Pv) as Lx.
    destruct (head_is "}"%char _).
    { injection H as <- <-. constructor; [split; assumption|constructor]. }
    destruct (head_is ","%char _); [|discriminate H].
    destruct (parse_members n _) as [[kxs r'']|e] eqn:Pm; [|discriminate H].
    injection H as <- <-. constructor; [split; assumption|].
    now apply (Mb _ _ _ Pm).
Qed.

Lemma loads_loadable (text : str) (v : pyobj) :
  loads text = Ret v -> loadable v = true.
Proof.
  unfold loads.
  destruct (parse_value _ _) as [[x rest]|e] eqn:Pv; [|discriminate].
  destruct (skip_ws rest); [|discriminate].
  intros E. injection E as <-.
  destruct (loadable_at (S (String.length (skip_ws text)))) as (V & _ & _).
  exact (V _ _ _ Pv).
Qed.

(** A loadable value is one [dumps] serializes. *)
Lemma loadable_dumps (v : pyobj) (indent : option nat) :
  loadable v = true -> dumps v indent = Ret (render indent 0 v).
Proof.
  intros L. unfold dumps.
  assert (K : keys_ok v = true /\ in_fragment v = true).
  { revert L. induction v as [| | | | |items IH|items IH] using pyobj_nested_ind;
      intros L; try (split; reflexivity); try discriminate L.
    - split; [reflexivity|exact L].
    - cbn [loadable keys_ok in_fragment] in *.
      rewrite !forallb_forall in *. rewrite Forall_forall in IH.
      split; intros x I; now apply (IH x I), L.
    - cbn [loadable keys_ok in_fragment] in *.
      apply andb_true_iff in L as [L _].
      rewrite !forallb_forall in *. rewrite Forall_forall in IH.
      split; intros [k x] I; specialize (L _ I); specialize (IH _ I);
        cbn [fst snd] in *; apply andb_true_iff in L as [Lk Lx];
        destruct (proj2 IH Lx) as [Kx Fx]; destruct k; try discriminate Lk.
      + now rewrite Kx.
      + cbn [in_fragment ascii_key] in *. now rewrite Lk, Fx. }
  destruct K as [-> ->]. reflexivity.
Qed.

(** The contract of the interface holds of the model. *)
Lemma json_model_round_trip : @json_round_trip lib.
Proof.
  intros text v indent L. cbn in *.
  pose proof (loads_loadable text v L) as Lv.
  exists (render indent 0 v).
  split; [now apply loadable_dumps | now apply loads_render].
Qed.

End RefJsonFacts.


(** ** The reference [yaml] model round-trips *)

Lemma render_uint_digits (d : Decimal.uint) : str_forallb is_digit (render_uint d) = true.
Proof. induction d; simpl; auto. Qed.

Lemma str_forallb_app (p : ascii -> bool) (a b : str) :
  str_forallb p (a ++ b) = str_forallb p a && str_forallb p b.
Proof. induction a as [|c a IH]; simpl; [reflexivity|]. now rewrite IH, andb_assoc. Qed.

Lemma str_forallb_impl (p q : ascii -> bool) (s : str) :
  (forall c, p c = true -> q c = true) ->
  str_forallb p s = true -> str_forallb q s = true.
Proof.
  intros I. induction s as [|c s IH]; simpl; [reflexivity|].
  intros E. apply andb_true_iff in E as [E1 E2]. now rewrite (I _ E1), IH.
Qed.

Lemma render_int_chars (z : Z) : str_forallb is_sign_or_digit (render_int z) = true.
Proof.
  unfold render_int. rewrite str_forallb_app. apply andb_true_iff. split.
  - destruct (z <? 0)%Z; reflexivity.
  - apply (str_forallb_impl is_digit); [|apply render_uint_digits].
    intros c D. unfold is_sign_or_digit. now rewrite D.
Qed.

Lemma mentions_none (p : ascii -> bool) (x : ascii) (s : str) :
  p x = false -> str_forallb p s = true -> mentions x s = false.
Proof.
  intros Px. induction s as [|c s IH]; simpl; [reflexivity|].
  intros E. apply andb_true_iff in E as [E1 E2]. rewrite mentions_cons, (IH E2).
  destruct (Ascii.eqb_spec c x); [congruence|reflexivity].
Qed.


Module RefYamlFacts.
Import RefYaml.

Lemma plain_key_chars (k : str) :
  plain_key k = true -> str_forallb is_key_char k = true /\ k <> EmptyString.
Proof.
  unfold plain_key. intros P.
  repeat (apply andb_true_iff in P as [P ?]).
  split; [exact P|]. intros ->. discriminate.
Qed.

Lemma has_indicator_none (s : str) :
  mentions ":"%char s = false -> has_indicator s = false.
Proof.
  induction s as [|c s IH]; simpl; [reflexivity|].
  rewrite mentions_cons. intros E. apply orb_false_iff in E as [E1 E2].
  now rewrite E1, (IH E2).
Qed.

Lemma read_key_line (k rest : str) :
  str_forallb is_key_char k = true ->
  read_key (k ++ String ":"%char rest) = (k, String ":"%char rest).
Proof.
  induction k as [|c k IH]; simpl; intros E; [reflexivity|].
  apply andb_true_iff in E as [E1 E2]. now rewrite E1, (IH E2).
Qed.

Lemma parse_line_of (kv : pyobj * pyobj) :
  item_ok kv = true -> parse_line (line_of kv) = Ret (pair_of kv).
Proof.
  destruct kv as [[| | | |k| |] [| |z| | | |]]; try discriminate.
  cbn [item_ok line_of pair_of key_of fst snd]. intros P.
  destruct (plain_key_chars k P) as [Kc _].
  unfold parse_line.
  change (k ++ ": " ++ render_int z)
    with (k ++ String ":"%char (String " "%char (render_int z))).
  rewrite (read_key_line _ _ Kc). cbn [strip_prefix Ascii.eqb Bool.eqb].
  rewrite has_indicator_none
    by (apply (mentions_none is_sign_or_digit); [reflexivity|apply render_int_chars]).
  rewrite P. cbn [negb].
  rewrite <- (append_nil_r (render_int z)) at 1.
  now rewrite read_integer_render.
Qed.

Lemma parse_lines_of (items : list (pyobj * pyobj)) :
  forallb item_ok items = true ->
  parse_lines (map line_of items) = Ret (map pair_of items).
Proof.
  induction items as [|kv items IH]; simpl; [reflexivity|].
  intros E. apply andb_true_iff in E as [E1 E2].
  now rewrite (parse_line_of _ E1), (IH E2).
Qed.

Lemma line_of_no_break (kv : pyobj * pyobj) :
  item_ok kv = true -> mentions LF (line_of kv) = false.
Proof.
  destruct kv as [[| | | |k| |] [| |z| | | |]]; try discriminate.
  cbn [item_ok line_of]. intros P. destruct (plain_key_chars k P) as [Kc _].
  rewrite !mentions_app.
  rewrite (mentions_none is_key_char LF k eq_refl Kc).
  rewrite (mentions_none is_sign_or_digit LF _ eq_refl (render_int_chars z)).
  reflexivity.
Qed.

Lemma dump_lines (items : list (pyobj * pyobj)) :
  forallb item_ok items = true ->
  concat_all (map dump_item items) =
  fold_right (fun l acc => l ++ nl ++ acc) EmptyString (map line_of items).
Proof.
  induction items as [|kv items IH]; simpl; [reflexivity|].
  intros E. apply andb_true_iff in E as [E1 E2]. rewrite (IH E2).
  destruct kv as [[| | | |k| |] [| |z| | | |]]; try discriminate E1.
  cbn [dump_item line_of]. now rewrite !append_assoc.
Qed.

Lemma dump_not_empty_mapping (kv : pyobj * pyobj) (t : str) :
  item_ok kv = true -> String.eqb (dump_item kv ++ t) empty_mapping = false.
Proof.
  destruct kv as [[| | | |k| |] [| |z| | | |]]; try discriminate.
  cbn [item_ok dump_item]. intros P. destruct (plain_key_chars k P) as [Kc Ne].
  destruct k as [|c k]; [congruence|]. cbn [str_forallb] in Kc.
  apply andb_true_iff in Kc as [Kc _].
  apply String.eqb_neq. intros E. injection E as -> _. discriminate Kc.
Qed.

(** A mapping of the fragment, dumped and loaded, is itself. *)
Lemma load_dump (kv : pyobj * pyobj) (items : list (pyobj * pyobj)) :
  forallb item_ok (kv :: items) = true ->
  NoDup (map key_of (kv :: items)) ->
  safe_load (concat_all (map dump_item (kv :: items))) = Ret (PyDict (kv :: items)).
Proof.
  intros Ok ND. unfold safe_load.
  cbn [map concat_all].
  rewrite dump_not_empty_mapping
    by (cbn [forallb] in Ok; now apply andb_true_iff in Ok as [? _]).
  change (dump_item kv ++ concat_all (map dump_item items))
    with (concat_all (map dump_item (kv :: items))).
  rewrite (dump_lines _ Ok), text_lines_terminated.
  - cbn [map]. change (line_of kv :: map line_of items) with (map line_of (kv :: items)).
    rewrite (parse_lines_of _ Ok). f_equal.
    unfold dict_of_pairs. rewrite (fold_dict_set _ []).
    + cbn [app]. f_equal. rewrite map_map.
      rewrite <- (map_id (kv :: items)) at 2. apply map_ext_in.
      intros [k x] I. rewrite forallb_forall in Ok. specialize (Ok _ I).
      destruct k; try discriminate Ok. reflexivity.
    + cbn [app]. now rewrite map_map.
  - apply Forall_map, Forall_forall. intros x I. apply line_of_no_break.
    rewrite forallb_forall in Ok. now apply Ok.
Qed.

(** What [safe_load] returns is a mapping of the fragment. *)

Lemma parse_line_ok (line : str) (kx : str * pyobj) :
  parse_line line = Ret kx -> entry_ok kx.
Proof.
  unfold parse_line. destruct (read_key line) as [k rest].
  destruct (strip_prefix ": " rest) as [value|]; [|discriminate].
  destruct (has_indicator value); [discriminate|].
  destruct (plain_key k) eqn:P; [|discriminate]. cbn [negb].
  destruct (read_integer value) as [[z r]|e]; [|discriminate].
  destruct r as [|c r]; [|discriminate].
  intros E. injection E as <-. split; [exact P|]. cbn. eauto.
Qed.

Lemma parse_lines_ok (lines : list str) (pairs : list (str * pyobj)) :
  parse_lines lines = Ret pairs ->
  Forall entry_ok pairs /\ length pairs = length lines.
Proof.
  revert pairs. induction lines as [|line lines IH]; simpl; intros pairs E.
  - injection E as <-. split; [constructor|reflexivity].
  - destruct (parse_line line) as [kx|e] eqn:Pl; [|discriminate].
    destruct (parse_lines lines) as [kxs|e]; [|discriminate].
    injection E as <-. destruct (IH _ eq_refl) as [F L].
    split; [constructor; [now apply (parse_line_ok line)|exact F]|simpl; now rewrite L].
Qed.

Lemma dict_set_entries (k : str) (x : pyobj) (d : list (str * pyobj)) :
  entry_ok (k, x) -> Forall entry_ok d -> Forall entry_ok (dict_set k x d).
Proof.
  intros Ok. induction 1 as [|[k' x'] d Okd F IH]; simpl.
  - now constructor.
  - destruct (String.eqb_spec k k') as [->|_]; constructor; auto.
Qed.

Lemma dict_set_not_nil (k : str) (x : pyobj) (d : list (str * pyobj)) :
  dict_set k x d <> [].
Proof. destruct d as [|[k' x'] d]; simpl; [|destruct (String.eqb k k')]; discriminate. Qed.

Lemma fold_entries (pairs acc : list (str * pyobj)) :
  Forall entry_ok pairs -> Forall entry_ok acc -> NoDup (map fst acc) ->
  (acc <> [] \/ pairs <> []) ->
  let d := fold_left (fun d kx => dict_set (fst kx) (snd kx) d) pairs acc in
  Forall entry_ok d /\ NoDup (map fst d) /\ d <> [].
Proof.
  intros F. revert acc. induction F as [|[k x] pairs Ok F IH]; intros acc Fa Na Ne; simpl.
  - split; [exact Fa|]. split; [exact Na|]. destruct Ne; congruence.
  - apply IH.
    + now apply dict_set_entries.
    + now apply dict_set_keys.
    + left. apply dict_set_not_nil.
Qed.

Lemma yaml_model_round_trip : @yaml_round_trip lib.
Proof.
  intros text v L. cbn in *. unfold safe_load in L.
  destruct (String.eqb text empty_mapping).
  { injection L as <-. exists empty_mapping. split; reflexivity. }
  destruct (text_lines text) as [|line lines] eqn:Tl; [discriminate L|].
  destruct (parse_lines (line :: lines)) as [pairs|e] eqn:Pl; [|discriminate L].
  injection L as <-.
  destruct (parse_lines_ok _ _ Pl) as [F Len].
  destruct (fold_entries pairs [] F (Forall_nil _) (NoDup_nil _)) as (Fd & Nd & Ne).
  { right. destruct pairs; [discriminate Len|discriminate]. }
  unfold dict_of_pairs.
  set (d := fold_left _ pairs []) in *. clearbody d.
  assert (Ok : forallb item_ok (map (fun kx : str * pyobj => let (k, x) := kx in (PyStr k, x)) d) = true).
  { apply forallb_forall. intros kv I. apply in_map_iff in I as ([k x] & <- & I).
    rewrite Forall_forall in Fd. destruct (Fd _ I) as [P [z Z]].
    cbn in *. now subst. }
  assert (Keys : map key_of (map (fun kx : str * pyobj => let (k, x) := kx in (PyStr k, x)) d)
                 = map fst d).
  { rewrite map_map. apply map_ext. now intros [k x]. }
  destruct d as [|kx d]; [congruence|].
  cbn [map] in *. destruct kx as [k x].
  exists (concat_all (map dump_item ((PyStr k, x) ::
            map (fun kx : str * pyobj => let (k, x) := kx in (PyStr k, x)) d))).
  split.
  - unfold safe_dump. cbn [map]. now rewrite Ok.
  - apply load_dump; [exact Ok|]. cbn [map]. now rewrite Keys.
Qed.

End RefYamlFacts.


(** * The program on concrete files *)

Example lower_mixed_case : lower "Prod.TF" = "prod.tf".
Proof. reflexivity. Qed.

Example endswith_tuple : endswith_any "chart.yml" [".yaml"; ".yml"] = true.
Proof. reflexivity. Qed.

(** Two bytes for U+00E9 decode; an overlong NUL and an encoded surrogate do
    not. *)
Example decode_two_byte_sequence :
  decode_utf8 [xc3; xa9] = Ret (String "195"%char (String "169"%char EmptyString)).
Proof. reflexivity. Qed.

Example decode_rejects_overlong : utf8_valid [xc0; x80] = false.
Proof. reflexivity. Qed.

Example decode_rejects_surrogate : utf8_valid [xed; xa0; x80] = false.
Proof. reflexivity. Qed.

Example to_csv_inventory :
  @to_csv (canned_workbook inventory) inventory false =
  "host,port" ++ nl ++ "web,80" ++ nl ++ "db,5432" ++ nl.
Proof. reflexivity. Qed.

Example to_csv_quotes_the_line_break :
  @to_csv (canned_workbook notes_frame) notes_frame false =
  "note" ++ nl ++ quoted ("first line" ++ nl ++ "second line") ++ nl.
Proof. reflexivity. Qed.

Example to_csv_quotes_the_quote :
  @to_csv (canned_workbook labelled) labelled false =
  "size" ++ nl ++
  quoted EmptyString ++ nl ++
  quoted ("19" ++ quoted EmptyString ++ " rack") ++ nl /\
  csv_shape (@to_csv (canned_workbook labelled) labelled false) 2 1 = true.
Proof. split; reflexivity. Qed.

(** A carriage return in a cell: quoted by a writer that quotes every line
    break, written bare by the one of Python 3.11; one record either way. *)
Example to_csv_carriage_return :
  csv_writerows true [["a" ++ String CR "b"]] =
    quoted ("a" ++ String CR "b") ++ nl /\
  csv_writerows false [["a" ++ String CR "b"]] = "a" ++ String CR "b" ++ nl /\
  csv_records (csv_writerows false [["a" ++ String CR "b"]]) =
    [["a" ++ String CR "b"]].
Proof. repeat split. Qed.

Example to_csv_with_index :
  @to_csv (canned_workbook inventory) inventory true =
  ",host,port" ++ nl ++ "0,web,80" ++ nl ++ "1,db,5432" ++ nl.
Proof. reflexivity. Qed.

Example json_file_is_pretty_printed :
  fst (@parse_uploaded_file (canned_workbook inventory) RefJson.lib RefYaml.lib
         (file_of "config.json" config_text)) =
  Ret ("{" ++ nl ++
       "  " ++ quoted "debug" ++ ": true," ++ nl ++
       "  " ++ quoted "ports" ++ ": [" ++ nl ++
       "    80," ++ nl ++
       "    443" ++ nl ++
       "  ]" ++ nl ++
       "}").
Proof. vm_compute. reflexivity. Qed.

Example yaml_file_keeps_its_key_order :
  fst (@parse_uploaded_file (canned_workbook inventory) RefJson.lib RefYaml.lib
         (file_of "deploy.yaml" deploy_text)) =
  Ret ("replicas: 3" ++ nl ++ "port: 8080" ++ nl).
Proof. vm_compute. reflexivity. Qed.

(** With [sort_keys=True] the same mapping would come out reordered. *)
Example yaml_sorted_keys_reorder :
  RefYaml.safe_dump deploy_value true =
  Ret ("port: 8080" ++ nl ++ "replicas: 3" ++ nl).
Proof. vm_compute. reflexivity. Qed.

Example other_extension_is_returned_verbatim :
  @parse_uploaded_file (canned_workbook inventory) RefJson.lib RefYaml.lib
    (file_of "prod.tf" prod_tf_text) =
  (Ret prod_tf_text, file_of "prod.tf" prod_tf_text).
Proof. vm_compute. reflexivity. Qed.

Example unreadable_workbook_is_reported :
  fst (@parse_uploaded_file
         {| read_excel := fun b _ =>
              (Raise (Exception "BadZipFile" "File is not a zip file"), length b);
            quotes_carriage_return := true |}
         RefJson.lib RefYaml.lib (file_of "sheet.xlsx" "not a workbook")) =
  Ret "ERROR reading Excel: File is not a zip file".
Proof. vm_compute. reflexivity. Qed.

Example no_upload_is_an_error_box :
  @run_security_scan (canned_workbook inventory) RefJson.lib RefYaml.lib
    (canned_service (Ret direct_response)) EmptyString (mkSession None [] []) =
  (Ret tt, mkSession None [] [st_error "Please upload a configuration file first."]).
Proof. reflexivity. Qed.

(** * The claims of the specification *)

(** ** What the specification says of the content normalizer *)

Section NormalizerClaims.
Context {pandas : Pandas} {json : Json} {yaml : Yaml}.

(** C1.  For a file whose name ends in ".json" and whose bytes decode to a
    text [json.loads] accepts, [parse_uploaded_file] returns that value
    serialized again with [indent=2], and loading the returned text gives
    the value the original text loads to. *)
Theorem json_normalization_round_trips
    (f : UploadedFile) (text : str) (v : pyobj) :
  json_round_trip ->
  endswith (name f) ".json" = true ->
  decode_utf8 (remaining f) = Ret text ->
  json_loads text = Ret v ->
  exists out,
    fst (parse_uploaded_file f) = Ret out /\
    json_dumps v (Some 2) = Ret out /\
    json_loads out = Ret v.
Proof.
  intros RT N D L.
  destruct (json_name f N) as (X & Y & J).
  destruct (RT text v (Some 2) L) as (out & Dump & Load).
  exists out. rewrite (parse_decoded f text X D), Y, J.
  cbn [fst]. unfold obind, or_else. rewrite L, Dump. auto.
Qed.

(** C2.  For a file whose name ends in ".yaml" or ".yml" and whose bytes
    decode to a text [yaml.safe_load] accepts, [parse_uploaded_file]
    returns that value dumped with [sort_keys=False]; loading the returned
    text gives an equal value, and every mapping has its keys in the order
    of the source. *)
Theorem yaml_normalization_round_trips
    (f : UploadedFile) (text : str) (v : pyobj) :
  yaml_round_trip ->
  endswith_any (name f) [".yaml"; ".yml"] = true ->
  decode_utf8 (remaining f) = Ret text ->
  yaml_safe_load text = Ret v ->
  exists out v',
    fst (parse_uploaded_file f) = Ret out /\
    yaml_safe_dump v false = Ret out /\
    yaml_safe_load out = Ret v' /\
    v' = v /\
    key_orders v' = key_orders v.
Proof.
  intros RT N D L.
  destruct (yaml_name f N) as (X & Y).
  destruct (RT text v L) as (out & Dump & Load).
  exists out, v. rewrite (parse_decoded f text X D), Y.
  cbn [fst]. unfold obind, or_else. rewrite L, Dump. auto.
Qed.

(** C3.  For a file whose name ends in ".json", ".yaml" or ".yml", whose
    bytes decode as UTF-8 and whose text the parser of that extension
    rejects, [parse_uploaded_file] returns the decoded text itself. *)
Theorem malformed_text_is_returned_unchanged
    (f : UploadedFile) (text : str) :
  decode_utf8 (remaining f) = Ret text ->
  (endswith (name f) ".json" = true /\ exists e, json_loads text = Raise e) \/
  (endswith_any (name f) [".yaml"; ".yml"] = true /\
   exists e, yaml_safe_load text = Raise e) ->
  fst (parse_uploaded_file f) = Ret text.
Proof.
  intros D [[N [e L]]|[N [e L]]].
  - destruct (json_name f N) as (X & Y & J).
    rewrite (parse_decoded f text X D), Y, J. cbn [fst].
    unfold obind, or_else. now rewrite L.
  - destruct (yaml_name f N) as (X & Y).
    rewrite (parse_decoded f text X D), Y. cbn [fst].
    unfold obind, or_else. now rewrite L.
Qed.

(** C4.  [parse_uploaded_file] returns a string for every file.  When
    [read_excel] fails on an ".xlsx" file the string describes the error;
    when the bytes of any other file are not UTF-8 it is "Unable to decode
    file."; and when the YAML or JSON parser or serializer fails it is the
    decoded text. *)
Theorem parse_uploaded_file_always_returns (f : UploadedFile) :
  (exists s, fst (parse_uploaded_file f) = Ret s) /\
  (endswith (lower (name f)) ".xlsx" = true ->
   forall e, fst (read_excel (data f) (pos f)) = Raise e ->
   fst (parse_uploaded_file f) = Ret ("ERROR reading Excel: " ++ exn_str e)) /\
  (endswith (lower (name f)) ".xlsx" = false ->
   (forall e, decode_utf8 (remaining f) = Raise e ->
    fst (parse_uploaded_file f) = Ret "Unable to decode file.") /\
   (forall text, decode_utf8 (remaining f) = Ret text ->
    (endswith_any (lower (name f)) [".yaml"; ".yml"] = true ->
     forall e,
       obind (yaml_safe_load text) (fun parsed => yaml_safe_dump parsed false)
       = Raise e ->
       fst (parse_uploaded_file f) = Ret text) /\
    (endswith_any (lower (name f)) [".yaml"; ".yml"] = false ->
     endswith (lower (name f)) ".json" = true ->
     forall e,
       obind (json_loads text) (fun parsed => json_dumps parsed (Some 2))
       = Raise e ->
       fst (parse_uploaded_file f) = Ret text) /\
    (endswith_any (lower (name f)) [".yaml"; ".yml"] = false ->
     endswith (lower (name f)) ".json" = false ->
     fst (parse_uploaded_file f) = Ret text))).
Proof.
  destruct (endswith (lower (name f)) ".xlsx") eqn:X.
  - rewrite (parse_xlsx f X). cbn [fst]. split; [eauto|]. split.
    + intros _ e E. now rewrite E.
    + discriminate.
  - split; [|split; [discriminate|intros _; split]].
    + destruct (decode_utf8 (remaining f)) as [text|e] eqn:D.
      * rewrite (parse_decoded f text X D). cbn [fst]. eauto.
      * rewrite (parse_undecodable f X (decode_utf8_raise _ _ D)). cbn [fst]. eauto.
    + intros e D.
      now rewrite (parse_undecodable f X (decode_utf8_raise _ _ D)).
    + intros text D. rewrite (parse_decoded f text X D). cbn [fst].
      repeat split.
      * intros -> e ->. reflexivity.
      * intros -> -> e ->. reflexivity.
      * intros -> ->. reflexivity.
Qed.

(** The cursor is back at the start whenever the bytes were decoded. *)
Lemma cursor_reset_after_decoding (f : UploadedFile) (text : str) :
  endswith (lower (name f)) ".xlsx" = false ->
  decode_utf8 (remaining f) = Ret text ->
  snd (parse_uploaded_file f) = rewound f.
Proof. intros X D. now rewrite (parse_decoded f text X D). Qed.

(** C9, at the input where it fails.  A file of one byte that is not
    UTF-8: [read()] moves the cursor to the end, [decode] raises, and the
    [seek(0)] that follows it in the [try] body is skipped. *)
Theorem cursor_not_reset_when_decoding_fails :
  parse_uploaded_file (mkFile "notes.txt" [xff] 0) =
  (Ret "Unable to decode file.", mkFile "notes.txt" [xff] 1) /\
  pos (snd (parse_uploaded_file (mkFile "notes.txt" [xff] 0))) <> 0.
Proof. split; [reflexivity | discriminate]. Qed.

(** C10.  Two files whose names differ only in the case of their letters,
    with the same bytes and cursor, are normalized to the same string and
    leave the cursor at the same place. *)
Theorem extension_dispatch_ignores_case (f g : UploadedFile) :
  lower (name f) = lower (name g) ->
  data f = data g ->
  pos f = pos g ->
  fst (parse_uploaded_file f) = fst (parse_uploaded_file g) /\
  pos (snd (parse_uploaded_file f)) = pos (snd (parse_uploaded_file g)).
Proof.
  intros N D P.
  destruct (parse_lowered f) as [Ff Pf], (parse_lowered g) as [Fg Pg].
  rewrite Ff, Pf, Fg, Pg, N, D, P. split; reflexivity.
Qed.

(** The names the specification mentions, for any bytes. *)
Lemma upper_case_names_dispatch_alike (b : bytes) (p : nat) :
  fst (parse_uploaded_file (mkFile "CONFIG.JSON" b p)) =
  fst (parse_uploaded_file (mkFile "config.json" b p)) /\
  fst (parse_uploaded_file (mkFile "SHEET.XLSX" b p)) =
  fst (parse_uploaded_file (mkFile "sheet.xlsx" b p)) /\
  fst (parse_uploaded_file (mkFile "DEPLOY.YAML" b p)) =
  fst (parse_uploaded_file (mkFile "deploy.yaml" b p)) /\
  fst (parse_uploaded_file (mkFile "DEPLOY.YML" b p)) =
  fst (parse_uploaded_file (mkFile "deploy.yml" b p)).
Proof.
  repeat split;
    match goal with
    | |- fst (parse_uploaded_file ?f) = _ =>
        rewrite (proj1 (parse_lowered f)); reflexivity
    end.
Qed.

End NormalizerClaims.

Section RequesterClaims.
Context {pandas : Pandas} {json : Json} {yaml : Yaml} {openai : OpenAI}.

Lemma call_llm_unfold (file_content notes : str) (sent : list Request) :
  call_llm file_content notes sent =
  (obind (responses_create sent (audit_request file_content notes)) extract_text,
   (sent ++ [audit_request file_content notes])%list).
Proof.
  unfold call_llm, bind, client_responses_create, lift.
  fold (audit_request file_content notes).
  destruct (responses_create sent (audit_request file_content notes));
    reflexivity.
Qed.

Lemma run_security_scan_unfold
    (s : Session) (up up' : UploadedFile) (content notes : str) :
  uploaded s = Some up ->
  parse_uploaded_file up = (Ret content, up') ->
  run_security_scan notes s =
  match call_llm content notes (sent s) with
  | (Ret result, sent') =>
      (Ret tt,
       mkSession (Some up') sent'
         (page s ++ drawn_before_request up content ++
          drawn_after_response up result)%list)
  | (Raise e, sent') =>
      (Raise e,
       mkSession (Some up') sent'
         (page s ++ drawn_before_request up content)%list)
  end.
Proof.
  intros U P. unfold run_security_scan, bind, get. rewrite U.
  unfold draw at 1. unfold on_file. cbn [uploaded sent page]. rewrite P.
  unfold draw at 1. cbn [uploaded sent page].
  unfold on_client, zoom. cbn [uploaded sent page].
  destruct (call_llm content notes (sent s)) as [[result|e] sent'].
  - unfold draw. cbn [uploaded sent page].
    unfold drawn_before_request, drawn_after_response.
    rewrite <- !app_assoc. reflexivity.
  - unfold drawn_before_request. rewrite <- !app_assoc. reflexivity.
Qed.

(** C6.  When [client.responses.create] raises, [call_llm] raises the same
    exception after that single request, and the scan stops there: the
    page holds what was drawn before the call, no finding and no download
    button. *)
Theorem network_failure_propagates
    (s : Session) (up up' : UploadedFile) (content notes : str) (e : exn) :
  uploaded s = Some up ->
  parse_uploaded_file up = (Ret content, up') ->
  responses_create (sent s) (audit_request content notes) = Raise e ->
  call_llm content notes (sent s) =
    (Raise e, (sent s ++ [audit_request content notes])%list) /\
  run_security_scan notes s =
    (Raise e,
     mkSession (Some up') (sent s ++ [audit_request content notes])%list
       (page s ++ drawn_before_request up content)%list).
Proof.
  intros U P N.
  assert (C : call_llm content notes (sent s) =
              (Raise e, (sent s ++ [audit_request content notes])%list))
    by now rewrite call_llm_unfold, N.
  split; [exact C|].
  now rewrite (run_security_scan_unfold s up up' content notes U P), C.
Qed.

(** C8.  When the scan of an uploaded file completes, the last thing drawn
    is the download button: its data is the report, its file name is the
    name of the upload followed by "_security_report.md", and its MIME
    type is text/markdown. *)
Theorem report_is_named_after_the_upload
    (s : Session) (up up' : UploadedFile) (content notes result : str)
    (sent' : list Request) :
  uploaded s = Some up ->
  parse_uploaded_file up = (Ret content, up') ->
  call_llm content notes (sent s) = (Ret result, sent') ->
  run_security_scan notes s =
    (Ret tt,
     mkSession (Some up') sent'
       (page s ++
        [st_info ("Processing file: " ++ name up)%string;
         st_expander "Parsed File Content" [st_code content];
         st_subheader "Security Findings";
         st_markdown result;
         st_download_button "Download Report" result
           (name up ++ "_security_report.md")%string "text/markdown"])%list).
Proof.
  intros U P C.
  now rewrite (run_security_scan_unfold s up up' content notes U P), C.
Qed.

End RequesterClaims.


(** C5, at an input where it fails.  The response has no [output_text]; its
    one output item has a [content] attribute that is an empty list.  The
    scan reads [item.content[0]], which raises, and nothing returns
    [str(response)]. *)
Theorem call_llm_raises_on_empty_content
    (file_content notes : str) (sent : list Request) :
  @call_llm (canned_service (Ret empty_content_response)) file_content notes sent =
  (Raise (Exception "IndexError" "list index out of range"),
   (sent ++ [audit_request file_content notes])%list).
Proof. reflexivity. Qed.

(** The stub of the specification: no direct text, one content item. *)
Example call_llm_reads_the_structured_item (file_content notes : str) :
  fst (@call_llm (canned_service (Ret structured_response)) file_content notes []) =
  Ret "FOUND: 1 HIGH issue".
Proof. reflexivity. Qed.

Section SpreadsheetClaims.
Context {pandas : Pandas} {json : Json} {yaml : Yaml}.


End SpreadsheetClaims.

(** * The claims at concrete inputs *)

(** C1 on [config.json]. *)
Lemma json_normalization_round_trips_witness :
  exists out,
    fst (@parse_uploaded_file (canned_workbook inventory) RefJson.lib RefYaml.lib
           (file_of "config.json" config_text)) = Ret out /\
    @json_dumps RefJson.lib config_value (Some 2) = Ret out /\
    @json_loads RefJson.lib out = Ret config_value.
Proof.
  apply (@json_normalization_round_trips (canned_workbook inventory)
           RefJson.lib RefYaml.lib (file_of "config.json" config_text)
           config_text config_value RefJsonFacts.json_model_round_trip);
    vm_compute; reflexivity.
Defined.

(** C2 on [deploy.yaml]. *)
Lemma yaml_normalization_round_trips_witness :
  exists out v',
    fst (@parse_uploaded_file (canned_workbook inventory) RefJson.lib RefYaml.lib
           (file_of "deploy.yaml" deploy_text)) = Ret out /\
    @yaml_safe_dump RefYaml.lib deploy_value false = Ret out /\
    @yaml_safe_load RefYaml.lib out = Ret v' /\
    v' = deploy_value /\
    key_orders v' = key_orders deploy_value.
Proof.
  apply (@yaml_normalization_round_trips (canned_workbook inventory)
           RefJson.lib RefYaml.lib (file_of "deploy.yaml" deploy_text)
           deploy_text deploy_value RefYamlFacts.yaml_model_round_trip);
    vm_compute; reflexivity.
Defined.

(** C3 on a ".json" file that is no JSON. *)
Lemma malformed_text_is_returned_unchanged_witness :
  fst (@parse_uploaded_file (canned_workbook inventory) RefJson.lib RefYaml.lib
         (file_of "broken.json" "{oops")) = Ret "{oops".
Proof.
  apply (@malformed_text_is_returned_unchanged (canned_workbook inventory)
           RefJson.lib RefYaml.lib (file_of "broken.json" "{oops") "{oops").
  - vm_compute; reflexivity.
  - left. split; [vm_compute; reflexivity|].
    eexists. vm_compute. reflexivity.
Defined.

(** C4 on a file that is not UTF-8. *)
Lemma parse_uploaded_file_always_returns_witness :
  (exists s,
     fst (@parse_uploaded_file (canned_workbook inventory) RefJson.lib RefYaml.lib
            (mkFile "notes.txt" [xff] 0)) = Ret s) /\
  fst (@parse_uploaded_file (canned_workbook inventory) RefJson.lib RefYaml.lib
         (mkFile "notes.txt" [xff] 0)) = Ret "Unable to decode file.".
Proof.
  pose proof (@parse_uploaded_file_always_returns (canned_workbook inventory)
                RefJson.lib RefYaml.lib (mkFile "notes.txt" [xff] 0))
    as (Returns & _ & Text).
  split; [exact Returns|].
  exact (proj1 (Text eq_refl) _ eq_refl).
Defined.

(** C6 with a service that cannot be reached. *)
Lemma network_failure_propagates_witness :
  @call_llm (canned_service (Raise connection_error)) prod_tf_text "focus on IAM" [] =
    (Raise connection_error, [audit_request prod_tf_text "focus on IAM"]) /\
  @run_security_scan (canned_workbook inventory) RefJson.lib RefYaml.lib
      (canned_service (Raise connection_error)) "focus on IAM"
      (fresh_session (file_of "prod.tf" prod_tf_text)) =
    (Raise connection_error,
     mkSession (Some (file_of "prod.tf" prod_tf_text))
       [audit_request prod_tf_text "focus on IAM"]
       (drawn_before_request (file_of "prod.tf" prod_tf_text) prod_tf_text)).
Proof.
  apply (@network_failure_propagates (canned_workbook inventory)
           RefJson.lib RefYaml.lib (canned_service (Raise connection_error))
           (fresh_session (file_of "prod.tf" prod_tf_text))
           (file_of "prod.tf" prod_tf_text) (file_of "prod.tf" prod_tf_text)
           prod_tf_text "focus on IAM" connection_error);
    reflexivity.
Defined.



(** C8 on [prod.tf]. *)
Lemma report_is_named_after_the_upload_witness :
  @run_security_scan (canned_workbook inventory) RefJson.lib RefYaml.lib
      (canned_service (Ret direct_response)) EmptyString
      (fresh_session (file_of "prod.tf" prod_tf_text)) =
    (Ret tt,
     mkSession (Some (file_of "prod.tf" prod_tf_text))
       [audit_request prod_tf_text EmptyString]
       [st_info "Processing file: prod.tf";
        st_expander "Parsed File Content" [st_code prod_tf_text];
        st_subheader "Security Findings";
        st_markdown "FOUND: 1 HIGH issue";
        st_download_button "Download Report" "FOUND: 1 HIGH issue"
          "prod.tf_security_report.md" "text/markdown"]).
Proof.
  apply (@report_is_named_after_the_upload (canned_workbook inventory)
           RefJson.lib RefYaml.lib (canned_service (Ret direct_response))
           (fresh_session (file_of "prod.tf" prod_tf_text))
           (file_of "prod.tf" prod_tf_text) (file_of "prod.tf" prod_tf_text)
           prod_tf_text EmptyString "FOUND: 1 HIGH issue"
           [audit_request prod_tf_text EmptyString]);
    reflexivity.
Defined.

(** C10 on [CONFIG.JSON] and [config.json]. *)
Lemma extension_dispatch_ignores_case_witness :
  fst (@parse_uploaded_file (canned_workbook inventory) RefJson.lib RefYaml.lib
         (file_of "CONFIG.JSON" config_text)) =
  fst (@parse_uploaded_file (canned_workbook inventory) RefJson.lib RefYaml.lib
         (file_of "config.json" config_text)) /\
  pos (snd (@parse_uploaded_file (canned_workbook inventory) RefJson.lib RefYaml.lib
              (file_of "CONFIG.JSON" config_text))) =
  pos (snd (@parse_uploaded_file (canned_workbook inventory) RefJson.lib RefYaml.lib
              (file_of "config.json" config_text))).
Proof.
  apply (@extension_dispatch_ignores_case (canned_workbook inventory)
           RefJson.lib RefYaml.lib
           (file_of "CONFIG.JSON" config_text) (file_of "config.json" config_text));
    reflexivity.
Defined.

(** * Further properties of the program *)

(** ** Strings and lists *)

Lemma append_inv_head (p a b : str) : p ++ a = p ++ b -> a = b.
Proof.
  induction p as [|c p IH]; simpl; intros E; [exact E|].
  injection E as E. exact (IH E).
Qed.

Lemma append_inv_tail (a b s : str) : a ++ s = b ++ s -> a = b.
Proof.
  revert b. induction a as [|c a IH]; intros [|d b] E; simpl in E.
  - reflexivity.
  - apply (f_equal String.length) in E. cbn [String.length] in E.
    rewrite length_app in E. lia.
  - apply (f_equal String.length) in E. cbn [String.length] in E.
    rewrite length_app in E. lia.
  - injection E as -> E. f_equal. exact (IH b E).
Qed.

Lemma mem_In (x : str) (l : list str) : mem x l = true <-> In x l.
Proof.
  unfold mem. rewrite existsb_exists. split.
  - intros [y [I E]]. apply String.eqb_eq in E. now subst.
  - intros I. exists x. split; [exact I | apply String.eqb_refl].
Qed.

(** ** The content normalizer *)

Section NormalizerProperties.
Context {pandas : Pandas} {json : Json} {yaml : Yaml}.

Lemma parse_returns (f : UploadedFile) :
  exists content f', parse_uploaded_file f = (Ret content, f').
Proof.
  destruct (endswith (lower (name f)) ".xlsx") eqn:X.
  - rewrite (parse_xlsx f X). eauto.
  - destruct (decode_utf8 (remaining f)) as [text|e] eqn:D.
    + rewrite (parse_decoded f text X D). eauto.
    + rewrite (parse_undecodable f X (decode_utf8_raise _ _ D)). eauto.
Qed.

Lemma remaining_at_end (f : UploadedFile) : remaining (at_end f) = [].
Proof. unfold remaining, at_end. cbn [pos data]. apply skipn_all2. lia. Qed.

Lemma rewound_start (f : UploadedFile) : pos f = 0 -> rewound f = f.
Proof. destruct f as [n d p]. unfold rewound. cbn. now intros ->. Qed.

Lemma decode_utf8_valid (b : bytes) :
  utf8_valid b = true -> decode_utf8 b = Ret (string_of_list_byte b).
Proof. unfold decode_utf8. now intros ->. Qed.

(** X1.  [parse_uploaded_file] changes nothing of the upload but its read
    cursor: the name and the bytes are those it was given.  The cursor
    ends where [read_excel] left it for an ".xlsx" name; for any other name
    it ends at the start when the unread bytes are UTF-8, and at the end of
    the data when they are not. *)
Theorem parse_moves_only_the_cursor (f : UploadedFile) :
  name (snd (parse_uploaded_file f)) = name f /\
  data (snd (parse_uploaded_file f)) = data f /\
  pos (snd (parse_uploaded_file f)) =
    if endswith (lower (name f)) ".xlsx" then snd (read_excel (data f) (pos f))
    else if utf8_valid (remaining f) then 0
    else Nat.max (pos f) (length (data f)).
Proof.
  destruct (endswith (lower (name f)) ".xlsx") eqn:X.
  - rewrite (parse_xlsx f X). repeat split.
  - destruct (utf8_valid (remaining f)) eqn:U.
    + rewrite (parse_decoded f _ X (decode_utf8_valid _ U)). repeat split.
    + rewrite (parse_undecodable f X U). repeat split.
Qed.

(** X2.  Normalizing is idempotent.  Under the round-trip contracts of the
    JSON and YAML libraries, when a file that is not a workbook is
    normalized to a text, a file of the same kind that holds that text is
    normalized to the same text again. *)
Theorem normalization_is_idempotent (f g : UploadedFile) (text out : str) :
  json_round_trip ->
  yaml_round_trip ->
  endswith (lower (name f)) ".xlsx" = false ->
  lower (name g) = lower (name f) ->
  decode_utf8 (remaining f) = Ret text ->
  fst (parse_uploaded_file f) = Ret out ->
  decode_utf8 (remaining g) = Ret out ->
  fst (parse_uploaded_file g) = Ret out.
Proof.
  intros JR YR X N Df Pf Dg.
  assert (Xg : endswith (lower (name g)) ".xlsx" = false) by now rewrite N.
  rewrite (parse_decoded f text X Df) in Pf.
  rewrite (parse_decoded g out Xg Dg), N.
  cbn [fst] in *.
  destruct (endswith_any (lower (name f)) [".yaml"; ".yml"]);
    [|destruct (endswith (lower (name f)) ".json")];
    injection Pf as Pf; f_equal.
  - destruct (yaml_safe_load text) as [v|e] eqn:L; cbn [obind or_else] in Pf.
    + destruct (YR text v L) as (s & Dump & Load).
      rewrite Dump in Pf. cbn [or_else] in Pf. subst s.
      rewrite Load. cbn [obind]. rewrite Dump. reflexivity.
    + subst out. rewrite L. reflexivity.
  - destruct (json_loads text) as [v|e] eqn:L; cbn [obind or_else] in Pf.
    + destruct (JR text v (Some 2) L) as (s & Dump & Load).
      rewrite Dump in Pf. cbn [or_else] in Pf. subst s.
      rewrite Load. cbn [obind]. rewrite Dump. reflexivity.
    + subst out. rewrite L. reflexivity.
Qed.

(** X3.  A file that is not a workbook, is at its start and holds UTF-8 can
    be parsed again: the second call on the same file object returns what
    the first returned and leaves the object in the same state. *)
Theorem reparse_gives_the_same_text (f : UploadedFile) (text : str) :
  pos f = 0 ->
  endswith (lower (name f)) ".xlsx" = false ->
  decode_utf8 (remaining f) = Ret text ->
  parse_uploaded_file (snd (parse_uploaded_file f)) = parse_uploaded_file f /\
  snd (parse_uploaded_file f) = f.
Proof.
  intros P X D. rewrite (parse_decoded f text X D). cbn [snd].
  rewrite (rewound_start f P), (parse_decoded f text X D), (rewound_start f P).
  split; reflexivity.
Qed.

(** X4.  After a failed decoding the file object is left at its end, so a
    second call on it reads no byte: it returns what an empty file of that
    name is normalized to (the empty text, for a name that is neither YAML
    nor JSON) in place of the message, and rewinds the file. *)
Theorem reparse_after_failed_decoding (f : UploadedFile) :
  endswith (lower (name f)) ".xlsx" = false ->
  utf8_valid (remaining f) = false ->
  fst (parse_uploaded_file f) = Ret "Unable to decode file." /\
  parse_uploaded_file (snd (parse_uploaded_file f)) =
    (fst (parse_uploaded_file (mkFile (name f) [] 0)), rewound f) /\
  (endswith_any (lower (name f)) [".yaml"; ".yml"] = false ->
   endswith (lower (name f)) ".json" = false ->
   fst (parse_uploaded_file (snd (parse_uploaded_file f))) = Ret EmptyString).
Proof.
  intros X U. rewrite (parse_undecodable f X U). cbn [fst snd].
  assert (D : decode_utf8 (remaining (at_end f)) = Ret EmptyString)
    by now rewrite remaining_at_end.
  assert (Xe : endswith (lower (name (at_end f))) ".xlsx" = false) by exact X.
  rewrite (parse_decoded (at_end f) _ Xe D).
  rewrite (parse_decoded (mkFile (name f) [] 0) EmptyString X eq_refl).
  change (name (at_end f)) with (name f).
  change (rewound (at_end f)) with (rewound f).
  cbn [fst snd name]. repeat split.
  intros -> ->. reflexivity.
Qed.

(** X5.  Of the extensions the uploader offers, those that are not YAML,
    JSON or a workbook are passed through: a file whose lowered name ends
    in one of them and whose bytes are UTF-8 comes back as its own text,
    byte for byte, whatever the libraries do, and is left rewound. *)
Theorem plain_types_pass_through (f : UploadedFile) (ext text : str) :
  mem ext UPLOAD_TYPES = true ->
  mem ext PARSED_TYPES = false ->
  endswith (lower (name f)) ("." ++ ext) = true ->
  decode_utf8 (remaining f) = Ret text ->
  parse_uploaded_file f = (Ret text, rewound f) /\
  list_byte_of_string text = remaining f.
Proof.
  intros Offered Plain E D.
  assert (Dispatch :
            endswith (lower (name f)) ".xlsx" = false /\
            endswith (lower (name f)) ".yaml" = false /\
            endswith (lower (name f)) ".yml" = false /\
            endswith (lower (name f)) ".json" = false).
  { apply mem_In in Offered. unfold UPLOAD_TYPES in Offered. cbn [In] in Offered.
    repeat (destruct Offered as [<-|Offered]; [try discriminate Plain|]);
      try contradiction;
      repeat split;
      match goal with
      | |- endswith _ ?b = false =>
          exact (endswith_exclusive _ _ b E eq_refl eq_refl)
      end. }
  destruct Dispatch as (X & Y1 & Y2 & J).
  rewrite (parse_decoded f text X D).
  unfold endswith_any, existsb. rewrite Y1, Y2, J. cbn [orb].
  split; [reflexivity|].
  apply decode_utf8_ret in D as [_ ->].
  apply list_byte_of_string_of_list_byte.
Qed.

End NormalizerProperties.

(** ** The audit request *)

(** The prompt is the file content and the notes between three fixed
    texts. *)
Lemma build_prompt_shape (file_content notes : str) :
  build_prompt file_content notes =
  prompt_head ++ file_content ++ notes_heading ++ notes ++ prompt_tail.
Proof.
  unfold build_prompt, prompt_head, notes_heading, prompt_tail.
  rewrite !append_assoc. reflexivity.
Qed.

Lemma audit_request_prompt (c n c' n' : str) :
  audit_request c n = audit_request c' n' ->
  build_prompt c n = build_prompt c' n'.
Proof.
  intros E.
  apply (f_equal (fun req => map content (input req))) in E.
  unfold audit_request in E. cbn [input map content] in E. congruence.
Qed.

(** X6.  The prompt does not delimit the file content.  A file whose text
    holds the heading of the notes yields the very request that the text
    before the heading yields when what follows it is typed as notes: the
    service cannot tell which part came from the file. *)
Theorem prompt_does_not_delimit_the_file (x y z : str) :
  x ++ notes_heading ++ y <> x /\
  audit_request (x ++ notes_heading ++ y) z =
  audit_request x (y ++ notes_heading ++ z).
Proof.
  split.
  - intros E. apply (f_equal String.length) in E.
    rewrite !length_app in E. unfold notes_heading in E.
    cbn [String.length append nl] in E. lia.
  - unfold audit_request. rewrite !build_prompt_shape, !append_assoc.
    reflexivity.
Qed.

(** X7.  The request carries the file content and the notes in full,
    nothing cut and nothing escaped: with the same notes two different
    contents give two different requests, and with the same content two
    different notes do. *)
Theorem request_carries_the_whole_text (c c' n n' : str) :
  (audit_request c n = audit_request c' n -> c = c') /\
  (audit_request c n = audit_request c n' -> n = n').
Proof.
  split; intros E; apply audit_request_prompt in E;
    rewrite !build_prompt_shape in E; apply append_inv_head in E.
  - exact (append_inv_tail _ _ _ E).
  - do 2 apply append_inv_head in E. exact (append_inv_tail _ _ _ E).
Qed.

(** The loop over [response.output] stops at the first item that has a
    content. *)
Lemma scan_output_find (items : list OutputItem) (r : Response) :
  scan_output items r =
  match find has_content items with
  | Some item => first_part_text item
  | None => Ret (response_str r)
  end.
Proof.
  induction items as [|item items IH]; [reflexivity|].
  cbn [scan_output find]. unfold has_content at 1.
  destruct (hasattr (item_content item)); [reflexivity | exact IH].
Qed.

Lemma find_first (before after : list OutputItem) (item : OutputItem) :
  forallb (fun i => negb (has_content i)) before = true ->
  has_content item = true ->
  find has_content (before ++ item :: after) = Some item.
Proof.
  intros B I. induction before as [|b before IH]; cbn [app find].
  - now rewrite I.
  - cbn [forallb] in B. apply andb_true_iff in B as [B1 B2].
    apply negb_true_iff in B1. rewrite B1. exact (IH B2).
Qed.

Section RequesterProperties.
Context {openai : OpenAI}.

Lemma call_llm_answered
    (file_content notes : str) (sent : list Request) (r : Response) :
  responses_create sent (audit_request file_content notes) = Ret r ->
  fst (call_llm file_content notes sent) = extract_text r.
Proof.
  intros A. unfold call_llm, bind, client_responses_create, lift.
  fold (audit_request file_content notes). now rewrite A.
Qed.

(** X8.  Without a direct text, the first output item that has a content
    attribute decides alone: [call_llm] returns or raises what reading
    [content[0].text] of that item gives, whatever the items after it
    hold. *)
Theorem later_items_are_not_read
    (file_content notes : str) (sent : list Request) (r : Response)
    (before after : list OutputItem) (item : OutputItem) :
  responses_create sent (audit_request file_content notes) = Ret r ->
  output_text r = None ->
  output r = Some (before ++ item :: after)%list ->
  forallb (fun i => negb (has_content i)) before = true ->
  has_content item = true ->
  fst (call_llm file_content notes sent) = first_part_text item.
Proof.
  intros A T O B I. rewrite (call_llm_answered _ _ _ _ A).
  unfold extract_text. rewrite T, O. cbn [getattr obind].
  now rewrite scan_output_find, (find_first before after item B I).
Qed.

(** X9.  When the service answers, [call_llm] returns exactly when the
    response yields a text: its direct text; without one, the text of the
    first part of the first item with a content, or [str(response)] when
    no item has one.  It raises when the response has neither a direct
    text nor an output list, and when that first item has an empty content
    or a first part without text. *)
Theorem call_llm_returns_exactly_when
    (file_content notes : str) (sent : list Request) (r : Response) :
  responses_create sent (audit_request file_content notes) = Ret r ->
  match response_text r with
  | Some t => fst (call_llm file_content notes sent) = Ret t
  | None => exists e, fst (call_llm file_content notes sent) = Raise e
  end.
Proof.
  intros A. rewrite (call_llm_answered _ _ _ _ A).
  unfold response_text, extract_text.
  destruct (output_text r) as [t|]; cbn [getattr]; [reflexivity|].
  destruct (output r) as [items|]; cbn [getattr obind]; [|eauto].
  rewrite scan_output_find.
  destruct (find has_content items) as [item|]; [|reflexivity].
  unfold first_part_text.
  destruct (item_content item) as [[|part parts]|]; cbn; eauto.
  destruct (part_text part); cbn; eauto.
Qed.

End RequesterProperties.

(** ** The scan *)

Section ScanProperties.
Context {pandas : Pandas} {json : Json} {yaml : Yaml} {openai : OpenAI}.

Lemma scan_of_upload (s : Session) (up up' : UploadedFile) (content notes : str) :
  uploaded s = Some up ->
  parse_uploaded_file up = (Ret content, up') ->
  exists below,
    uploaded (snd (run_security_scan notes s)) = Some up' /\
    sent (snd (run_security_scan notes s)) =
      (sent s ++ [audit_request content notes])%list /\
    page (snd (run_security_scan notes s)) =
      (page s ++ drawn_before_request up content ++ below)%list.
Proof.
  intros U P.
  rewrite (run_security_scan_unfold s up up' content notes U P), call_llm_unfold.
  destruct (responses_create (sent s) (audit_request content notes)) as [r|e];
    cbn [obind].
  - destruct (extract_text r) as [result|e].
    + exists (drawn_after_response up result). repeat split.
    + exists []. rewrite app_nil_r. repeat split.
  - exists []. rewrite app_nil_r. repeat split.
Qed.

Lemma scan_without_upload (s : Session) (notes : str) :
  uploaded s = None ->
  run_security_scan notes s =
  (Ret tt,
   mkSession None (sent s)
     (page s ++ [st_error "Please upload a configuration file first."])%list).
Proof.
  intros U. unfold run_security_scan, bind, get, draw. rewrite U.
  cbn [uploaded sent page]. now rewrite U.
Qed.

(** X10.  A scan sends what it shows.  With a file in the uploader, the
    scan sends one request, whatever the service then does: the request
    for the text [parse_uploaded_file] returned and the notes; and that
    text is what the page shows under "Parsed File Content". *)
Theorem scan_sends_what_it_shows (s : Session) (up : UploadedFile) (notes : str) :
  uploaded s = Some up ->
  exists content up' below,
    parse_uploaded_file up = (Ret content, up') /\
    uploaded (snd (run_security_scan notes s)) = Some up' /\
    sent (snd (run_security_scan notes s)) =
      (sent s ++ [audit_request content notes])%list /\
    page (snd (run_security_scan notes s)) =
      (page s ++
       [st_info ("Processing file: " ++ name up)%string;
        st_expander "Parsed File Content" [st_code content]] ++ below)%list.
Proof.
  intros U. destruct (parse_returns up) as (content & up' & P).
  destruct (scan_of_upload s up up' content notes U P) as (below & A & B & C).
  exists content, up', below. auto.
Qed.

(** X11.  A file that cannot be read does not stop the scan.  When the
    bytes of the upload are not UTF-8, or [read_excel] fails on a
    workbook, the request still goes out, with the error message in the
    place of the file content. *)
Theorem unreadable_upload_is_still_audited
    (s : Session) (up : UploadedFile) (notes message : str) :
  uploaded s = Some up ->
  (endswith (lower (name up)) ".xlsx" = false /\
   utf8_valid (remaining up) = false /\
   message = "Unable to decode file.") \/
  (endswith (lower (name up)) ".xlsx" = true /\
   exists e, fst (read_excel (data up) (pos up)) = Raise e /\
             message = "ERROR reading Excel: " ++ exn_str e) ->
  sent (snd (run_security_scan notes s)) =
    (sent s ++ [audit_request message notes])%list /\
  In (st_expander "Parsed File Content" [st_code message])
     (page (snd (run_security_scan notes s))).
Proof.
  intros U Failure.
  assert (P : exists up', parse_uploaded_file up = (Ret message, up')).
  { destruct Failure as [(X & V & ->)|(X & e & E & ->)].
    - rewrite (parse_undecodable up X V). eauto.
    - rewrite (parse_xlsx up X), E. eauto. }
  destruct P as (up' & P).
  destruct (scan_of_upload s up up' message notes U P) as (below & _ & B & C).
  split; [exact B|]. rewrite C. unfold drawn_before_request.
  apply in_or_app. right. right. left. reflexivity.
Qed.

End ScanProperties.

(** ** The whole script *)

Lemma secrets_get_missing (secrets : Secrets) (key : str) :
  mem key (map fst secrets) = false ->
  exists e, secrets_get secrets key = Raise e.
Proof.
  unfold mem. induction secrets as [|[k v] secrets IH]; cbn [map fst existsb secrets_get].
  - eauto.
  - intros E. apply orb_false_iff in E as [E1 E2].
    rewrite String.eqb_sym, E1. exact (IH E2).
Qed.

Section ScriptProperties.
Context {pandas : Pandas} {json : Json} {yaml : Yaml}.
Variable OpenAI_client : str -> OpenAI.

Lemma app_py_with_key (secrets : Secrets) (key notes : str) (clicked : bool) (r : Run) :
  secrets_get secrets "OPENAI_API_KEY" = Ret key ->
  app_py OpenAI_client secrets notes clicked r =
  if clicked then
    let (result, s) :=
      @run_security_scan pandas json yaml (OpenAI_client key) notes (session r) in
    (result, mkRun (widgets r ++ form) s)
  else (Ret tt, mkRun (widgets r ++ form) (session r)).
Proof.
  intros K. unfold app_py, bind, lift. rewrite K. unfold place.
  cbn [widgets session]. rewrite <- !app_assoc. cbn [app].
  destruct clicked; [|reflexivity].
  unfold in_session, zoom. cbn [widgets session]. reflexivity.
Qed.

(** X12.  One run of the script, with the key configured, draws the form
    and sends at most one request.  It sends none, and touches neither
    the upload nor the page of the session, unless the button was pressed;
    none when the button was pressed with no file in the uploader; and
    with a file, the one request for what [parse_uploaded_file] returns
    on it, with the notes typed. *)
Theorem a_run_sends_at_most_one_request
    (secrets : Secrets) (key notes : str) (clicked : bool) (r : Run) :
  secrets_get secrets "OPENAI_API_KEY" = Ret key ->
  widgets (snd (app_py OpenAI_client secrets notes clicked r)) =
    (widgets r ++ form)%list /\
  (clicked = false ->
   app_py OpenAI_client secrets notes clicked r =
   (Ret tt, mkRun (widgets r ++ form) (session r))) /\
  (clicked = true ->
   uploaded (session r) = None ->
   sent (session (snd (app_py OpenAI_client secrets notes clicked r))) =
   sent (session r)) /\
  (clicked = true ->
   forall up, uploaded (session r) = Some up ->
   exists content,
     fst (parse_uploaded_file up) = Ret content /\
     sent (session (snd (app_py OpenAI_client secrets notes clicked r))) =
     (sent (session r) ++ [audit_request content notes])%list).
Proof.
  intros K. rewrite (app_py_with_key secrets key notes clicked r K).
  destruct clicked.
  - destruct (@run_security_scan pandas json yaml (OpenAI_client key) notes
                (session r)) as [result s] eqn:Scan.
    cbn [snd widgets session].
    split; [reflexivity|]. split; [discriminate|]. split.
    + intros _ U.
      rewrite (@scan_without_upload pandas json yaml (OpenAI_client key)
                 (session r) notes U) in Scan.
      injection Scan as _ <-. reflexivity.
    + intros _ up U.
      destruct (parse_returns up) as (content & up' & P).
      destruct (@scan_of_upload pandas json yaml (OpenAI_client key)
                  (session r) up up' content notes U P) as (below & _ & S & _).
      exists content. split; [now rewrite P|].
      rewrite Scan in S. exact S.
  - cbn [snd widgets]. split; [reflexivity|]. split; [reflexivity|].
    split; discriminate.
Qed.

(** X13.  Without the key the script stops at its first lines: when the
    secrets hold no "OPENAI_API_KEY", a run raises before it draws
    anything, sends nothing and leaves the upload as it was. *)
Theorem missing_key_stops_the_script
    (secrets : Secrets) (notes : str) (clicked : bool) (r : Run) :
  mem "OPENAI_API_KEY" (map fst secrets) = false ->
  exists e, app_py OpenAI_client secrets notes clicked r = (Raise e, r).
Proof.
  intros Missing.
  destruct (secrets_get_missing secrets _ Missing) as [e E].
  exists e. unfold app_py, bind, lift. now rewrite E.
Qed.

End ScriptProperties.

(** * The further properties at concrete inputs *)

(** X2: the pretty-printed [config.json], uploaded again. *)
Lemma normalization_is_idempotent_witness :
  fst (@parse_uploaded_file (canned_workbook inventory) RefJson.lib RefYaml.lib
         (file_of "CONFIG.JSON" config_pretty)) = Ret config_pretty.
Proof.
  apply (@normalization_is_idempotent (canned_workbook inventory)
           RefJson.lib RefYaml.lib
           (file_of "config.json" config_text)
           (file_of "CONFIG.JSON" config_pretty) config_text config_pretty
           RefJsonFacts.json_model_round_trip
           RefYamlFacts.yaml_model_round_trip);
    vm_compute; reflexivity.
Defined.

(** X3 on [prod.tf]. *)
Lemma reparse_gives_the_same_text_witness :
  @parse_uploaded_file (canned_workbook inventory) RefJson.lib RefYaml.lib
    (snd (@parse_uploaded_file (canned_workbook inventory) RefJson.lib RefYaml.lib
            (file_of "prod.tf" prod_tf_text))) =
  @parse_uploaded_file (canned_workbook inventory) RefJson.lib RefYaml.lib
    (file_of "prod.tf" prod_tf_text) /\
  snd (@parse_uploaded_file (canned_workbook inventory) RefJson.lib RefYaml.lib
         (file_of "prod.tf" prod_tf_text)) = file_of "prod.tf" prod_tf_text.
Proof.
  apply (@reparse_gives_the_same_text (canned_workbook inventory)
           RefJson.lib RefYaml.lib (file_of "prod.tf" prod_tf_text) prod_tf_text);
    reflexivity.
Defined.

(** X4 on a text file of one byte that is not UTF-8: the message first,
    the empty text next. *)
Lemma reparse_after_failed_decoding_witness :
  fst (@parse_uploaded_file (canned_workbook inventory) RefJson.lib RefYaml.lib
         garbled) = Ret "Unable to decode file." /\
  fst (@parse_uploaded_file (canned_workbook inventory) RefJson.lib RefYaml.lib
         (snd (@parse_uploaded_file (canned_workbook inventory) RefJson.lib
                 RefYaml.lib garbled))) = Ret EmptyString.
Proof.
  pose proof (@reparse_after_failed_decoding (canned_workbook inventory)
                RefJson.lib RefYaml.lib garbled eq_refl eq_refl)
    as (First & _ & Second).
  split; [exact First | exact (Second eq_refl eq_refl)].
Defined.

(** X5 on a Terraform file. *)
Lemma plain_types_pass_through_witness :
  @parse_uploaded_file (canned_workbook inventory) RefJson.lib RefYaml.lib
    (file_of "Prod.TF" prod_tf_text) =
  (Ret prod_tf_text, file_of "Prod.TF" prod_tf_text) /\
  list_byte_of_string prod_tf_text = list_byte_of_string prod_tf_text.
Proof.
  apply (@plain_types_pass_through (canned_workbook inventory)
           RefJson.lib RefYaml.lib (file_of "Prod.TF" prod_tf_text) "tf"
           prod_tf_text);
    reflexivity.
Defined.

(** X8: the text of the third item is not reached. *)
Lemma later_items_are_not_read_witness :
  fst (@call_llm (canned_service (Ret late_text_response))
         prod_tf_text EmptyString []) =
  Raise (Exception "IndexError" "list index out of range").
Proof.
  apply (@later_items_are_not_read (canned_service (Ret late_text_response))
           prod_tf_text EmptyString [] late_text_response
           [mkItem None]
           [mkItem (Some [mkPart (Some "FOUND: 1 HIGH issue")])]
           (mkItem (Some [])));
    reflexivity.
Defined.

(** X9 on the response with one structured item. *)
Lemma call_llm_returns_exactly_when_witness :
  fst (@call_llm (canned_service (Ret structured_response))
         prod_tf_text EmptyString []) = Ret "FOUND: 1 HIGH issue".
Proof.
  exact (@call_llm_returns_exactly_when (canned_service (Ret structured_response))
           prod_tf_text EmptyString [] structured_response eq_refl).
Defined.

(** X10 with a service that cannot be reached. *)
Lemma scan_sends_what_it_shows_witness :
  exists content up' below,
    @parse_uploaded_file (canned_workbook inventory) RefJson.lib RefYaml.lib
      (file_of "prod.tf" prod_tf_text) = (Ret content, up') /\
    uploaded (snd (@run_security_scan (canned_workbook inventory) RefJson.lib
                     RefYaml.lib (canned_service (Raise connection_error))
                     "focus on IAM"
                     (fresh_session (file_of "prod.tf" prod_tf_text)))) =
      Some up' /\
    sent (snd (@run_security_scan (canned_workbook inventory) RefJson.lib
                 RefYaml.lib (canned_service (Raise connection_error))
                 "focus on IAM"
                 (fresh_session (file_of "prod.tf" prod_tf_text)))) =
      [audit_request content "focus on IAM"] /\
    page (snd (@run_security_scan (canned_workbook inventory) RefJson.lib
                 RefYaml.lib (canned_service (Raise connection_error))
                 "focus on IAM"
                 (fresh_session (file_of "prod.tf" prod_tf_text)))) =
      ([st_info "Processing file: prod.tf";
        st_expander "Parsed File Content" [st_code content]] ++ below)%list.
Proof.
  apply (@scan_sends_what_it_shows (canned_workbook inventory) RefJson.lib
           RefYaml.lib (canned_service (Raise connection_error))
           (fresh_session (file_of "prod.tf" prod_tf_text))
           (file_of "prod.tf" prod_tf_text) "focus on IAM").
  reflexivity.
Defined.

(** X11 on a text file that is not UTF-8. *)
Lemma unreadable_upload_is_still_audited_witness :
  sent (snd (@run_security_scan (canned_workbook inventory) RefJson.lib
               RefYaml.lib (canned_service (Ret direct_response)) EmptyString
               (fresh_session garbled))) =
    [audit_request "Unable to decode file." EmptyString] /\
  In (st_expander "Parsed File Content" [st_code "Unable to decode file."])
     (page (snd (@run_security_scan (canned_workbook inventory) RefJson.lib
                   RefYaml.lib (canned_service (Ret direct_response))
                   EmptyString (fresh_session garbled)))).
Proof.
  apply (@unreadable_upload_is_still_audited (canned_workbook inventory)
           RefJson.lib RefYaml.lib (canned_service (Ret direct_response))
           (fresh_session garbled) garbled EmptyString
           "Unable to decode file.").
  - reflexivity.
  - left. repeat split; reflexivity.
Defined.

(** X12: the button pressed with [prod.tf] in the uploader, and not
    pressed. *)
Lemma a_run_sends_at_most_one_request_witness :
  (exists content,
     fst (@parse_uploaded_file (canned_workbook inventory) RefJson.lib RefYaml.lib
            (file_of "prod.tf" prod_tf_text)) = Ret content /\
     sent (session (snd (@app_py (canned_workbook inventory) RefJson.lib
                           RefYaml.lib
                           (any_key (canned_service (Ret direct_response)))
                           configured "focus on IAM" true
                           (mkRun [] (fresh_session
                                        (file_of "prod.tf" prod_tf_text)))))) =
     [audit_request content "focus on IAM"]) /\
  @app_py (canned_workbook inventory) RefJson.lib RefYaml.lib
    (any_key (canned_service (Ret direct_response)))
    configured "focus on IAM" false
    (mkRun [] (fresh_session (file_of "prod.tf" prod_tf_text))) =
  (Ret tt, mkRun form (fresh_session (file_of "prod.tf" prod_tf_text))).
Proof.
  split.
  - exact (proj2 (proj2 (proj2
             (@a_run_sends_at_most_one_request (canned_workbook inventory)
                RefJson.lib RefYaml.lib
                (any_key (canned_service (Ret direct_response)))
                configured "sk-test" "focus on IAM" true
                (mkRun [] (fresh_session (file_of "prod.tf" prod_tf_text)))
                eq_refl)))
           eq_refl (file_of "prod.tf" prod_tf_text) eq_refl).
  - exact (proj1 (proj2
             (@a_run_sends_at_most_one_request (canned_workbook inventory)
                RefJson.lib RefYaml.lib
                (any_key (canned_service (Ret direct_response)))
                configured "sk-test" "focus on IAM" false
                (mkRun [] (fresh_session (file_of "prod.tf" prod_tf_text)))
                eq_refl))
           eq_refl).
Defined.

(** X13 with secrets that hold another key only. *)
Lemma missing_key_stops_the_script_witness :
  exists e,
    @app_py (canned_workbook inventory) RefJson.lib RefYaml.lib
      (any_key (canned_service (Ret direct_response)))
      [("OPENAI_ORG", "org-1")] EmptyString true
      (mkRun [] (fresh_session (file_of "prod.tf" prod_tf_text))) =
    (Raise e, mkRun [] (fresh_session (file_of "prod.tf" prod_tf_text))).
Proof.
  apply (@missing_key_stops_the_script (canned_workbook inventory)
           RefJson.lib RefYaml.lib
           (any_key (canned_service (Ret direct_response)))
           [("OPENAI_ORG", "org-1")] EmptyString true
           (mkRun [] (fresh_session (file_of "prod.tf" prod_tf_text)))).
  reflexivity.
Defined.
